(** * Intent-to-transaction orchestration of the Sui AI agent

    A shallow embedding of [routers/chat.py]: the [/chat] dispatcher, the
    [/execute] endpoint and the contact vault ([/contacts/save],
    [/contacts/list]), with the external services (intent classifier,
    blockchain gateway, wallet signer, encryption, blob store) as oracles
    whose invocations are recorded in a call log. *)

From Stdlib Require Import ZArith String Ascii List.
From Stdlib Require Strings.Byte.
From Stdlib Require Import Floats.SpecFloat.
From stdpp Require Import base option gmap strings list pretty.

Open Scope Z_scope.

(** ** Python values and exceptions *)

(** The scalar and list values a JSON body or a [Dict[str, Any]] carries. *)
#[local] Unset Elimination Schemes.
Inductive pyval :=
| PNone
| PBool (b : bool)
| PInt (n : Z)
| PFloat (f : spec_float)
| PStr (s : string)
| PList (l : list pyval).
#[local] Set Elimination Schemes.

(** Python truthiness, as used by [if x:], [not x] and [x or y]. *)
Definition truthy (v : pyval) : bool :=
  match v with
  | PNone => false
  | PBool b => b
  | PInt n => negb (n =? 0)
  | PFloat (S754_zero _) => false
  | PFloat _ => true
  | PStr s => negb (String.eqb s "")
  | PList l => match l with [] => false | _ => true end
  end.

Definition str_truthy (s : string) : bool := negb (String.eqb s "").

Definition opt_truthy (o : option string) : bool :=
  match o with Some s => str_truthy s | None => false end.

(** [o or dflt] for an optional string. *)
Definition str_or (o : option string) (dflt : string) : string :=
  match o with
  | Some s => if str_truthy s then s else dflt
  | None => dflt
  end.

(** [v == "literal"] for a value taken out of a dict. *)
Definition py_eq_str (v : pyval) (s : string) : bool :=
  match v with PStr t => String.eqb t s | _ => false end.

(** [d.get(k)] and [d.get(k, default)]. *)
Definition dict_get (d : gmap string pyval) (k : string) : pyval :=
  default PNone (d !! k).
Definition dict_get_default (d : gmap string pyval) (k : string) (dflt : pyval) : pyval :=
  default dflt (d !! k).

(** An f-string, kept as its parts: literal text and interpolated values. *)
Inductive fpart :=
| Lit (s : string)
| Val (v : pyval).

Definition fstring := list fpart.

(** The exceptions the handlers tell apart: FastAPI's [HTTPException],
    [ValueError], and every other subclass of [Exception]. *)
Inductive exn :=
| HTTPException (status_code : Z) (detail : fstring)
| ValueError (msg : string)
| OtherError (msg : string).

Definition HTTP_400_BAD_REQUEST : Z := 400.
Definition HTTP_500_INTERNAL_SERVER_ERROR : Z := 500.

(** [str(e)]; Starlette renders an [HTTPException] as [status: detail]. *)
Definition exn_str (e : exn) : fstring :=
  match e with
  | HTTPException c d => Lit (pretty c) :: Lit ": " :: d
  | ValueError m => [Lit m]
  | OtherError m => [Lit m]
  end.

Inductive result (A : Type) :=
| Ok (a : A)
| Raise (e : exn).
Arguments Ok {A} a.
Arguments Raise {A} e.

Definition is_ok {A} (r : result A) : bool :=
  match r with Ok _ => true | Raise _ => false end.

Definition status_of {A} (r : result A) : option Z :=
  match r with
  | Raise (HTTPException c _) => Some c
  | _ => None
  end.

(** ** The handler monad: a state threaded through, exceptions propagated *)

Definition M (S A : Type) : Type := S → result A * S.

Global Instance M_ret {S} : MRet (M S) := λ A a s, (Ok a, s).
Global Instance M_bind {S} : MBind (M S) := λ A B f m s,
  match m s with
  | (Ok a, s') => f a s'
  | (Raise e, s') => (Raise e, s')
  end.

Definition raise {S A} (e : exn) : M S A := λ s, (Raise e, s).

Definition lift {S A} (r : result A) : M S A := λ s, (r, s).

(** [try: body except ...: handler]; the handler decides what to re-raise. *)
Definition try_except {S A} (body : M S A) (handler : exn → M S A) : M S A := λ s,
  match body s with
  | (Ok a, s') => (Ok a, s')
  | (Raise e, s') => handler e s'
  end.

(** ** Numbers: [float], [int] and [str] as Python evaluates them *)

Module PyNum.

(** IEEE 754 binary64, the representation of a Python [float]. *)
Definition prec : Z := 53.
Definition emax : Z := 1024.

(** [float(n)] for an [int]: the nearest double, ties to even. *)
Definition float_of_int (n : Z) : result spec_float :=
  match binary_normalize prec emax n 0 false with
  | S754_infinity _ => Raise (OtherError "int too large to convert to float")
  | f => Ok f
  end.

(** The double nearest to [(-1)^neg * m / 10^k], ties to even: what
    [float] returns for a decimal literal with digits [m] and [k] of
    them after the point. *)
Definition float_of_decimal (neg : bool) (m : Z) (k : Z) : spec_float :=
  match m with
  | Zpos p =>
      SFdiv prec emax (S754_finite neg p 0)
            (S754_finite false (Z.to_pos (10 ^ k)) 0)
  | _ => S754_zero neg
  end.

Definition digit_of (c : ascii) : option Z :=
  let n := Z.of_N (N_of_ascii c) in
  if (48 <=? n) && (n <=? 57) then Some (n - 48) else None.

(** Reads a run of digits, continuing the number [m] and the count [n];
    returns what is left of the string. *)
Fixpoint read_digits (s : string) (m n : Z) : Z * Z * string :=
  match s with
  | String c s' =>
      match digit_of c with
      | Some d => read_digits s' (10 * m + d) (n + 1)
      | None => (m, n, s)
      end
  | EmptyString => (m, n, s)
  end.

Definition strip_sign (s : string) : bool * string :=
  match s with
  | String "-" r => (true, r)
  | String "+" r => (false, r)
  | _ => (false, s)
  end.

(** A plain decimal literal [[sign] digits [. digits]] with at least one
    digit: sign, all digits read as one integer, number of fractional
    digits. Exponents, [inf]/[nan], underscores and surrounding blanks,
    which Python's [float] also accepts, are outside this grammar. *)
Definition parse_decimal (s : string) : option (bool * Z * Z) :=
  let '(neg, s1) := strip_sign s in
  let '(m1, n1, s2) := read_digits s1 0 0 in
  match s2 with
  | EmptyString => if n1 =? 0 then None else Some (neg, m1, 0)
  | String "." s3 =>
      let '(m2, n2, s4) := read_digits s3 m1 0 in
      match s4 with
      | EmptyString => if n1 + n2 =? 0 then None else Some (neg, m2, n2)
      | _ => None
      end
  | _ => None
  end.

(** [float(v)]. *)
Definition py_float (v : pyval) : result spec_float :=
  match v with
  | PStr s =>
      match parse_decimal s with
      | Some (neg, m, k) => Ok (float_of_decimal neg m k)
      | None => Raise (ValueError ("could not convert string to float: '" +:+ s +:+ "'"))
      end
  | PInt n => float_of_int n
  | PBool b => Ok (if b then S754_finite false 4503599627370496 (-52) else S754_zero false)
  | PFloat f => Ok f
  | PNone | PList _ =>
      Raise (OtherError "float() argument must be a string or a real number")
  end.

(** [x * n] for a float [x] and an int [n]: [n] is converted first. *)
Definition float_mul_int (x : spec_float) (n : Z) : result spec_float :=
  match float_of_int n with
  | Ok y => Ok (SFmul prec emax x y)
  | Raise e => Raise e
  end.

(** [int(x)] for a float: truncation toward zero. *)
Definition int_of_float (x : spec_float) : result Z :=
  match x with
  | S754_zero _ => Ok 0
  | S754_finite s m e =>
      let a := if 0 <=? e then Z.pos m * 2 ^ e else Z.pos m / 2 ^ (- e) in
      Ok (if s then - a else a)
  | S754_infinity _ => Raise (OtherError "cannot convert float infinity to integer")
  | S754_nan => Raise (ValueError "cannot convert float NaN to integer")
  end.

(** Reads a string of digits as a number, left to right. *)
Fixpoint int_of_digits (s : string) (acc : Z) : option Z :=
  match s with
  | EmptyString => Some acc
  | String c s' =>
      match digit_of c with
      | Some d => int_of_digits s' (10 * acc + d)
      | None => None
      end
  end.

(** [int(s)] for a string [[sign] digits].  Python also accepts blanks
    around the literal and underscores between digits; those strings are
    rejected here. *)
Definition int_of_str (s : string) : result Z :=
  let '(neg, r) := strip_sign s in
  match r with
  | EmptyString => Raise (ValueError ("invalid literal for int() with base 10: '" +:+ s +:+ "'"))
  | _ =>
      match int_of_digits r 0 with
      | Some n => Ok (if neg then - n else n)
      | None => Raise (ValueError ("invalid literal for int() with base 10: '" +:+ s +:+ "'"))
      end
  end.

(** [int(float(amount_str) * (10 ** decimals))]: the decimal literal is
    rounded to a double, multiplied by the (exactly representable) power
    of ten in double arithmetic, and truncated. *)
Definition smallest_units (amount_str : pyval) (decimals : Z) : result Z :=
  match py_float amount_str with
  | Ok x =>
      match float_mul_int x (10 ^ decimals) with
      | Ok y => int_of_float y
      | Raise e => Raise e
      end
  | Raise e => Raise e
  end.

(** [str(int(float(amount_str) * (10 ** decimals)))], the
    [amount_in_smallest] of the stake, unstake and transfer flows. *)
Definition amount_in_smallest (amount_str : pyval) (decimals : Z) : result string :=
  match smallest_units amount_str decimals with
  | Ok n => Ok (pretty n)
  | Raise e => Raise e
  end.

(** What the conversion is meant to compute: the decimal [m / 10^k]
    scaled by [10^d], digits beyond the [d]-th dropped. *)
Definition scaled_exact (neg : bool) (m k d : Z) : Z :=
  let a := m * 10 ^ d / 10 ^ k in
  if neg then - a else a.

End PyNum.

(** ** Strings: the operations the handlers apply *)

Module PyStr.

Definition lower_ascii (c : ascii) : ascii :=
  let n := N_of_ascii c in
  if ((65 <=? n) && (n <=? 90))%N then ascii_of_N (n + 32) else c.

(** [s.lower()] for a string of ASCII characters: the letters [A]-[Z] are
    lowered.  Python also lowers the capitals outside ASCII, which this
    function leaves as they are; properties about lowered text are stated
    for ASCII strings. *)
Fixpoint lower (s : string) : string :=
  match s with
  | EmptyString => EmptyString
  | String c r => String (lower_ascii c) (lower r)
  end.

(** [s.replace(" ", "_")]. *)
Fixpoint spaces_to_underscores (s : string) : string :=
  match s with
  | EmptyString => EmptyString
  | String c r =>
      String (if Ascii.eqb c " " then "_"%char else c) (spaces_to_underscores r)
  end.

(** [s[:n]], counted in the characters of [string]: for ASCII text, the
    first [n] characters as in Python. *)
Definition prefix (n : nat) (s : string) : string := substring 0 n s.

Definition hex_digit (n : N) : ascii :=
  match n with
  | 0 => "0" | 1 => "1" | 2 => "2" | 3 => "3" | 4 => "4" | 5 => "5"
  | 6 => "6" | 7 => "7" | 8 => "8" | 9 => "9" | 10 => "a" | 11 => "b"
  | 12 => "c" | 13 => "d" | 14 => "e" | _ => "f"
  end%char%N.

(** [b.hex()]: two lowercase hexadecimal digits per byte. *)
Fixpoint hex (b : list Byte.byte) : string :=
  match b with
  | [] => EmptyString
  | x :: r =>
      let n := Byte.to_N x in
      String (hex_digit (n / 16)%N) (String (hex_digit (n mod 16)%N) (hex r))
  end.

End PyStr.

(** ** Data model ([models.schemas]) *)

(** Modelled from the spec: [TokenType], whose declaration is in
    [models/schemas.py]; the native token and the stable token. *)
Inductive TokenType := SUI | USDC.

Definition token_value (t : TokenType) : string :=
  match t with SUI => "SUI" | USDC => "USDC" end.

Definition token_eqb (a b : TokenType) : bool :=
  match a, b with SUI, SUI | USDC, USDC => true | _, _ => false end.

(** [TokenType(v)]: lookup of an enum member by value.  Which values are
    members, and that any other value raises [ValueError], is as in Python.
    The message is [repr(v)] followed by [is not a valid TokenType]: it is
    Python's text for [None], a boolean, an integer and a string that
    [repr] writes between apostrophes unchanged; for the other values (a
    string with an apostrophe or a character that [repr] escapes, a float,
    a list) the text is an approximation, and no property below depends on
    the text. *)
Definition TokenType_of (v : pyval) : result TokenType :=
  match v with
  | PStr s =>
      if String.eqb s "SUI" then Ok SUI
      else if String.eqb s "USDC" then Ok USDC
      else Raise (ValueError ("'" +:+ s +:+ "' is not a valid TokenType"))
  | PNone => Raise (ValueError "None is not a valid TokenType")
  | PBool b =>
      Raise (ValueError ((if b then "True" else "False") +:+ " is not a valid TokenType"))
  | PInt n => Raise (ValueError (pretty n +:+ " is not a valid TokenType"))
  | PFloat _ | PList _ => Raise (ValueError "not a valid TokenType")
  end.

(** Modelled from the spec: [IntentAction], whose declaration is in
    [models/schemas.py]. *)
Inductive IntentAction :=
| AMBIGUOUS | GET_BALANCE | GET_STAKE_INFO | STAKE_TOKEN | UNSTAKE_TOKEN
| TRANSFER_TOKEN | CREATE_ADDRESS_BOOK | SAVE_CONTACT | LIST_CONTACTS | UNKNOWN.

Record Intent := {
  action : IntentAction;
  parsed_data : gmap string pyval;
  confidence : spec_float;
  clarification_question : option string
}.

Record DryRunSummary := {
  action_description : pyval;
  risk_level : string;
  estimated_gas_fee : pyval
}.

Record BalanceInfo := {
  balance_token : TokenType;
  balance : pyval;
  balance_formatted : pyval
}.

Record StakeInfo := {
  stake_token : TokenType;
  staked_amount : pyval;
  staked_amount_formatted : pyval
}.

Record AddressBook := { object_id : string }.

Record ChatRequest := {
  message : string;
  user_address : option string;
  context : option (gmap string pyval)
}.

Record ChatResponse := {
  intent : Intent;
  dry_run : option DryRunSummary;
  ready_to_execute : bool;
  response_message : fstring;
  transaction_data : option (gmap string pyval)
}.

Record ExecuteTransactionRequest := {
  exec_user_address : string;
  exec_transaction_data : gmap string pyval
}.

Record TransactionResult := {
  success : bool;
  transaction_digest : option string;
  effects : option (gmap string pyval);
  error : option string
}.

(** What a [build_*_transaction] call returns: the dict's
    [transaction_bytes] entry. *)
Record BuiltTransaction := { transaction_bytes : list Byte.byte }.

Record ContactRecord := {
  name : string;
  address : string;
  notes : option string
}.

(** [int(v)]. *)
Definition py_int (v : pyval) : result Z :=
  match v with
  | PInt n => Ok n
  | PBool b => Ok (if b then 1 else 0)
  | PStr s => PyNum.int_of_str s
  | PFloat f => PyNum.int_of_float f
  | PNone | PList _ =>
      Raise (OtherError "int() argument must be a string, a bytes-like object or a real number")
  end.

(** [str(x)] for an optional string field. *)
Definition str_opt (o : option string) : string := default "None" o.

(** ** External collaborators *)

(** One entry of the call log per invocation of an external service, with
    the arguments it was given. *)
Inductive Call :=
| C_parse_intent (message : string) (user_address : option string)
| C_generate_dry_run_summary (action : string) (parsed : gmap string pyval)
    (sender_balance estimated_gas : pyval)
| C_get_balance (address : string) (token_type : TokenType)
| C_get_user_stake (user_address : string) (token_type : TokenType)
| C_estimate_gas_fee (tx : list Byte.byte)
| C_get_user_address_book (user_address : string)
| C_build_create_address_book_tx (sender : string)
| C_build_add_contact_tx (sender address_book_id contact_key : string)
| C_encrypt_contact (user_address : string)
| C_build_stake_transaction (sender : string) (amount : pyval) (token_type : TokenType)
| C_build_unstake_transaction (sender : string) (amount : pyval) (token_type : TokenType)
| C_build_transfer_transaction (sender : string) (recipient amount : pyval)
    (token_type : TokenType)
| C_WalletService (private_key : pyval)
| C_wallet_get_address (private_key : pyval)
| C_wallet_execute_transaction (private_key : pyval) (tx : list Byte.byte)
| C_wallet_build_and_execute_transfer (private_key recipient amount : pyval)
    (token_type : TokenType)
| C_download_blob (blob_id : string)
| C_upload_blob
| C_decrypt_bulk_contacts (user_address : string)
| C_encrypt_bulk_contacts (user_address : string) (contacts : list ContactRecord).

(** Calls that reach the blockchain gateway ([sui_service]). *)
Definition is_gateway_call (c : Call) : bool :=
  match c with
  | C_get_balance _ _ | C_get_user_stake _ _ | C_estimate_gas_fee _
  | C_get_user_address_book _ | C_build_create_address_book_tx _
  | C_build_add_contact_tx _ _ _
  | C_build_stake_transaction _ _ _ | C_build_unstake_transaction _ _ _
  | C_build_transfer_transaction _ _ _ _ => true
  | _ => false
  end.

(** Calls that construct or use the wallet signer ([WalletService]). *)
Definition is_wallet_call (c : Call) : bool :=
  match c with
  | C_WalletService _ | C_wallet_get_address _
  | C_wallet_execute_transaction _ _
  | C_wallet_build_and_execute_transfer _ _ _ _ => true
  | _ => false
  end.

(** Calls that sign or submit a transaction. *)
Definition is_signing_call (c : Call) : bool :=
  match c with
  | C_wallet_execute_transaction _ _
  | C_wallet_build_and_execute_transfer _ _ _ _ => true
  | _ => false
  end.

(** Calls to the blob store or the encryption service. *)
Definition is_storage_or_encryption_call (c : Call) : bool :=
  match c with
  | C_download_blob _ | C_upload_blob | C_decrypt_bulk_contacts _
  | C_encrypt_bulk_contacts _ _ | C_encrypt_contact _ => true
  | _ => false
  end.

Definition is_build_create_address_book (c : Call) : bool :=
  match c with C_build_create_address_book_tx _ => true | _ => false end.

(** The answers of the services of [/chat] and [/execute]. A service may
    raise; a wallet is identified by the key it was constructed from. *)
Record Services := {
  parse_intent : string → option string → result Intent;
  generate_dry_run_summary :
    string → gmap string pyval → pyval → pyval → result DryRunSummary;
  get_balance : string → TokenType → result BalanceInfo;
  get_user_stake : string → TokenType → result StakeInfo;
  estimate_gas_fee : list Byte.byte → result pyval;
  get_user_address_book : string → result (option AddressBook);
  build_create_address_book_tx : string → result (gmap string pyval);
  build_add_contact_tx :
    string → string → string → pyval → list Byte.byte → Z → result (gmap string pyval);
  encrypt_contact : string → pyval → pyval → pyval → result pyval;
  build_stake_transaction : string → pyval → TokenType → result BuiltTransaction;
  build_unstake_transaction : string → pyval → TokenType → result BuiltTransaction;
  build_transfer_transaction :
    string → pyval → pyval → TokenType → result BuiltTransaction;
  WalletService : pyval → result unit;
  wallet_get_address : pyval → result string;
  wallet_execute_transaction : pyval → list Byte.byte → result TransactionResult;
  wallet_build_and_execute_transfer :
    pyval → pyval → pyval → TokenType → result TransactionResult;
  os_urandom : Z → list Byte.byte;
  time_time : Z
}.

(** Invoke a service: log the call, return (or raise) its answer. *)
Definition call {A} (c : Call) (r : result A) : M (list Call) A :=
  λ log, (r, log ++ [c]).

Definition bad_request {S A} (detail : string) : M S A :=
  raise (HTTPException HTTP_400_BAD_REQUEST [Lit detail]).

(** [if not request.user_address: raise HTTPException(400, detail)]. *)
Definition require_address {S} (ua : option string) (detail : string) : M S string :=
  match ua with
  | Some a => if str_truthy a then mret a else bad_request detail
  | None => bad_request detail
  end.

(** The [except HTTPException: raise / except Exception as e: raise
    HTTPException(500, prefix + str(e))] pair that closes [/chat] and
    [/execute]. *)
Definition reraise_or_500 {S A} (prefix : string) (e : exn) : M S A :=
  match e with
  | HTTPException _ _ => raise e
  | _ => raise (HTTPException HTTP_500_INTERNAL_SERVER_ERROR (Lit prefix :: exn_str e))
  end.

(** ** [POST /chat]: the action dispatcher *)

(** [chat_endpoint] is one [if / elif] chain over [intent.action]; each
    branch is a definition of its own here, in the order of the source,
    and [dispatch] is the chain. *)

Section Chat.

Variable sv : Services.

Definition no_dry_run (intent : Intent) (msg : fstring) : ChatResponse :=
  {| intent := intent; dry_run := None; ready_to_execute := false;
     response_message := msg; transaction_data := None |}.

Definition handle_ambiguous (intent : Intent) : M (list Call) ChatResponse :=
  mret (no_dry_run intent
          [Lit (str_or (clarification_question intent)
                  "Could you provide more details?")]).

Definition handle_get_balance (request : ChatRequest) (intent : Intent)
  : M (list Call) ChatResponse :=
  ua ← require_address (user_address request) "User address required for balance query";
  token_type ← lift (TokenType_of (dict_get_default (parsed_data intent) "token" (PStr "SUI")));
  balance_info ← call (C_get_balance ua token_type) (get_balance sv ua token_type);
  mret (no_dry_run intent
          [Lit "Your "; Lit (token_value (balance_token balance_info));
           Lit " balance is "; Val (balance_formatted balance_info)]).

Definition handle_get_stake_info (request : ChatRequest) (intent : Intent)
  : M (list Call) ChatResponse :=
  ua ← require_address (user_address request) "User address required for stake info query";
  token_type ← lift (TokenType_of (dict_get_default (parsed_data intent) "token" (PStr "SUI")));
  stake_info ← call (C_get_user_stake ua token_type) (get_user_stake sv ua token_type);
  mret (no_dry_run intent
          [Lit "You have staked "; Val (staked_amount_formatted stake_info); Lit " ";
           Lit (token_value (stake_token stake_info)); Lit " in the staking pool."]).

Definition handle_stake_token (request : ChatRequest) (intent : Intent)
  : M (list Call) ChatResponse :=
  ua ← require_address (user_address request) "User address required for staking";
  let parsed_data := parsed_data intent in
  token_type ← lift (TokenType_of (dict_get_default parsed_data "token" (PStr "SUI")));
  balance_info ← call (C_get_balance ua token_type) (get_balance sv ua token_type);
  let amount_str := dict_get_default parsed_data "amount" (PStr "0") in
  let decimals := 9 in
  amount_in_smallest ← lift (PyNum.amount_in_smallest amount_str decimals);
  estimated_gas ← call (C_estimate_gas_fee []) (estimate_gas_fee sv []);
  let summary_data : gmap string pyval :=
    <["recipient" := PStr "Staking Pool"]>
    (<["amount" := PStr amount_in_smallest]>
    (<["token" := PStr (token_value token_type)]> ∅)) in
  dry_run ←
    call (C_generate_dry_run_summary "stake_token" summary_data
            (balance balance_info) estimated_gas)
         (generate_dry_run_summary sv "stake_token" summary_data
            (balance balance_info) estimated_gas);
  let transaction_data : gmap string pyval :=
    <["action" := PStr "stake_token"]>
    (<["amount" := PStr amount_in_smallest]>
    (<["token" := PStr (token_value token_type)]> ∅)) in
  mret {| intent := intent;
          dry_run := Some dry_run;
          ready_to_execute :=
            if negb (String.eqb (risk_level dry_run) "high") then true else false;
          response_message :=
            [Lit "Ready to stake "; Val amount_str; Lit " "; Lit (token_value token_type);
             Lit ". Estimated gas: ~"; Val (estimated_gas_fee dry_run); Lit " SUI."];
          transaction_data := Some transaction_data |}.

Definition handle_unstake_token (request : ChatRequest) (intent : Intent)
  : M (list Call) ChatResponse :=
  ua ← require_address (user_address request) "User address required for unstaking";
  let parsed_data := parsed_data intent in
  token_type ← lift (TokenType_of (dict_get_default parsed_data "token" (PStr "SUI")));
  stake_info ← call (C_get_user_stake ua token_type) (get_user_stake sv ua token_type);
  balance_info ← call (C_get_balance ua token_type) (get_balance sv ua token_type);
  let amount_str := dict_get_default parsed_data "amount" (PStr "0") in
  let decimals := 9 in
  amount_in_smallest ← lift (PyNum.amount_in_smallest amount_str decimals);
  requested ← lift (PyNum.int_of_str amount_in_smallest);
  staked ← lift (py_int (staked_amount stake_info));
  if requested >? staked then
    mret (no_dry_run intent
            [Lit "Insufficient staked amount. You have ";
             Val (staked_amount_formatted stake_info); Lit " ";
             Lit (token_value token_type); Lit " staked, but trying to unstake ";
             Val amount_str; Lit " "; Lit (token_value token_type); Lit "."])
  else
    estimated_gas ← call (C_estimate_gas_fee []) (estimate_gas_fee sv []);
    let summary_data : gmap string pyval :=
      <["recipient" := PStr ua]>
      (<["amount" := PStr amount_in_smallest]>
      (<["token" := PStr (token_value token_type)]> ∅)) in
    dry_run ←
      call (C_generate_dry_run_summary "unstake_token" summary_data
              (balance balance_info) estimated_gas)
           (generate_dry_run_summary sv "unstake_token" summary_data
              (balance balance_info) estimated_gas);
    let transaction_data : gmap string pyval :=
      <["action" := PStr "unstake_token"]>
      (<["amount" := PStr amount_in_smallest]>
      (<["token" := PStr (token_value token_type)]> ∅)) in
    mret {| intent := intent;
            dry_run := Some dry_run;
            ready_to_execute := true;
            response_message :=
              [Lit "Ready to unstake "; Val amount_str; Lit " ";
               Lit (token_value token_type);
               Lit ". Estimated gas: ~"; Val (estimated_gas_fee dry_run); Lit " SUI."];
            transaction_data := Some transaction_data |}.

Definition handle_transfer_token (request : ChatRequest) (intent : Intent)
  : M (list Call) ChatResponse :=
  ua ← require_address (user_address request) "User address required for transfers";
  let parsed_data := parsed_data intent in
  let recipient := dict_get parsed_data "recipient" in
  let is_contact_name := dict_get_default parsed_data "is_contact_name" (PBool false) in
  if truthy is_contact_name then
    address_book ← call (C_get_user_address_book ua) (get_user_address_book sv ua);
    match address_book with
    | None =>
        mret (no_dry_run intent
                [Lit "Contact '"; Val recipient;
                 Lit "' not found. You don't have an address book yet. Say 'Create my address book' to get started, then save contacts with 'Save [name] [address] as [key]'."])
    | Some book =>
        mret (no_dry_run intent
                [Lit "Contact name resolution is coming soon! For now, please use the full wallet address. You can check your saved contacts in Sui Explorer using your address book ID: ";
                 Lit (PyStr.prefix 20 (object_id book)); Lit "..."])
    end
  else
    token_type ← lift (TokenType_of (dict_get_default parsed_data "token" (PStr "SUI")));
    balance_info ← call (C_get_balance ua token_type) (get_balance sv ua token_type);
    let amount_str := dict_get_default parsed_data "amount" (PStr "0") in
    let decimals := if token_eqb token_type SUI then 9 else 6 in
    amount_in_smallest ← lift (PyNum.amount_in_smallest amount_str decimals);
    estimated_gas ← call (C_estimate_gas_fee []) (estimate_gas_fee sv []);
    let summary_data : gmap string pyval :=
      <["recipient" := recipient]>
      (<["amount" := PStr amount_in_smallest]>
      (<["token" := PStr (token_value token_type)]> ∅)) in
    dry_run ←
      call (C_generate_dry_run_summary "transfer_token" summary_data
              (balance balance_info) estimated_gas)
           (generate_dry_run_summary sv "transfer_token" summary_data
              (balance balance_info) estimated_gas);
    let transaction_data : gmap string pyval :=
      <["action" := PStr "transfer_token"]>
      (<["recipient" := recipient]>
      (<["amount" := PStr amount_in_smallest]>
      (<["token" := PStr (token_value token_type)]> ∅))) in
    mret {| intent := intent;
            dry_run := Some dry_run;
            ready_to_execute :=
              if negb (String.eqb (risk_level dry_run) "high") then true else false;
            response_message :=
              [Lit "Ready to "; Val (action_description dry_run);
               Lit ". Estimated gas: ~"; Val (estimated_gas_fee dry_run); Lit " SUI."];
            transaction_data := Some transaction_data |}.

Definition handle_create_address_book (request : ChatRequest) (intent : Intent)
  : M (list Call) ChatResponse :=
  ua ← require_address (user_address request) "User address required to create address book";
  existing_book ← call (C_get_user_address_book ua) (get_user_address_book sv ua);
  match existing_book with
  | Some book =>
      mret (no_dry_run intent
              [Lit "You already have an address book (ID: ";
               Lit (PyStr.prefix 16 (object_id book));
               Lit "...). You can start saving contacts!"])
  | None =>
      tx_result ← call (C_build_create_address_book_tx ua)
                       (build_create_address_book_tx sv ua);
      let transaction_data : gmap string pyval :=
        <["action" := PStr "create_address_book"]>
        (<["transaction_type" := dict_get tx_result "transaction_type"]>
        (<["target" := dict_get tx_result "target"]>
        (<["arguments" := dict_get_default tx_result "arguments" (PList [])]>
        (<["type_arguments" := dict_get_default tx_result "type_arguments" (PList [])]> ∅)))) in
      mret {| intent := intent;
              dry_run := None;
              ready_to_execute := true;
              response_message :=
                [Lit "Ready to create your on-chain address book. This is a one-time setup that stores your contacts permanently on Sui. Estimated gas: ~0.01 SUI."];
              transaction_data := Some transaction_data |}
  end.

(** [v.lower().replace(" ", "_")]: only a [str] has these methods. *)
Definition normalise_key (v : pyval) : result string :=
  match v with
  | PStr s => Ok (PyStr.spaces_to_underscores (PyStr.lower s))
  | _ => Raise (OtherError "object has no attribute 'lower'")
  end.

Definition handle_save_contact (request : ChatRequest) (intent : Intent)
  : M (list Call) ChatResponse :=
  ua ← require_address (user_address request) "User address required to save contact";
  let parsed_data := parsed_data intent in
  contact_key ← lift (normalise_key (dict_get_default parsed_data "contact_key" (PStr "")));
  let contact_name := dict_get_default parsed_data "contact_name" (PStr "") in
  let contact_address := dict_get_default parsed_data "contact_address" (PStr "") in
  let notes := dict_get_default parsed_data "notes" (PStr "") in
  if negb (str_truthy contact_key) || negb (truthy contact_address) then
    mret (no_dry_run intent
            [Lit "I need a contact name/key and wallet address to save. Example: 'Save Alice's address 0x123... as alice'"])
  else
    address_book ← call (C_get_user_address_book ua) (get_user_address_book sv ua);
    match address_book with
    | None =>
        mret (no_dry_run intent
                [Lit "You don't have an address book yet. Say 'Create my address book' first!"])
    | Some book =>
        encrypted_data ← call (C_encrypt_contact ua)
                              (encrypt_contact sv ua contact_name contact_address notes);
        let nonce := os_urandom sv 16 in
        let timestamp := time_time sv in
        tx_result ←
          call (C_build_add_contact_tx ua (object_id book) contact_key)
               (build_add_contact_tx sv ua (object_id book) contact_key
                  encrypted_data nonce timestamp);
        let transaction_data : gmap string pyval :=
          <["action" := PStr "save_contact"]>
          (<["transaction_type" := dict_get tx_result "transaction_type"]>
          (<["target" := dict_get tx_result "target"]>
          (<["arguments" := dict_get_default tx_result "arguments" (PList [])]>
          (<["type_arguments" := dict_get_default tx_result "type_arguments" (PList [])]>
          (<["contact_key" := PStr contact_key]>
          (<["contact_name" := contact_name]> ∅)))))) in
        mret {| intent := intent;
                dry_run := None;
                ready_to_execute := true;
                response_message :=
                  [Lit "Ready to save '"; Val contact_name; Lit "' as '"; Lit contact_key;
                   Lit "' to your address book. This will be encrypted and stored on-chain. Estimated gas: ~0.02 SUI."];
                transaction_data := Some transaction_data |}
    end.

Definition handle_list_contacts (request : ChatRequest) (intent : Intent)
  : M (list Call) ChatResponse :=
  ua ← require_address (user_address request) "User address required to list contacts";
  address_book ← call (C_get_user_address_book ua) (get_user_address_book sv ua);
  match address_book with
  | None =>
      mret (no_dry_run intent
              [Lit "You don't have an address book yet. Say 'Create my address book' to get started!"])
  | Some book =>
      mret (no_dry_run intent
              [Lit "Your address book (ID: "; Lit (PyStr.prefix 16 (object_id book));
               Lit "...) is ready. Contact listing from on-chain data is coming soon! For now, you can save contacts using 'Save [name] [address] as [key]'."])
  end.

(** The [if / elif] chain over [intent.action]. *)
Definition dispatch (request : ChatRequest) (intent : Intent)
  : M (list Call) ChatResponse :=
  match action intent with
  | AMBIGUOUS => handle_ambiguous intent
  | GET_BALANCE => handle_get_balance request intent
  | GET_STAKE_INFO => handle_get_stake_info request intent
  | STAKE_TOKEN => handle_stake_token request intent
  | UNSTAKE_TOKEN => handle_unstake_token request intent
  | TRANSFER_TOKEN => handle_transfer_token request intent
  | CREATE_ADDRESS_BOOK => handle_create_address_book request intent
  | SAVE_CONTACT => handle_save_contact request intent
  | LIST_CONTACTS => handle_list_contacts request intent
  | UNKNOWN =>
      mret (no_dry_run intent [Lit "I didn't understand that. Could you rephrase?"])
  end.

Definition chat_endpoint (request : ChatRequest) : M (list Call) ChatResponse :=
  try_except
    (intent ← call (C_parse_intent (message request) (user_address request))
                   (parse_intent sv (message request) (user_address request));
     dispatch request intent)
    (reraise_or_500 "Error processing request: ").

End Chat.

(** ** [POST /execute]: the transaction executor *)

Section Execute.

Variable sv : Services.

(** [except ValueError as e: raise HTTPException(400, prefix + str(e))];
    anything else passes through to the outer handlers. *)
Definition value_error_400 {A} (prefix : string) (e : exn) : M (list Call) A :=
  match e with
  | ValueError m => bad_request (prefix +:+ m)
  | _ => raise e
  end.

(** [return result] on success, a 500 carrying [result.error] otherwise. *)
Definition return_or_500 (prefix : string) (result : TransactionResult)
  : M (list Call) TransactionResult :=
  if success result then mret result
  else raise (HTTPException HTTP_500_INTERNAL_SERVER_ERROR
                [Lit prefix; Lit (str_opt (error result))]).

(** The result of the client-signing path. *)
Definition ready_for_signing (tx_hex msg : string) : TransactionResult :=
  {| success := true;
     transaction_digest := None;
     effects := Some (<["status" := PStr "ready_for_signing"]>
                     (<["transaction_bytes" := PStr tx_hex]>
                     (<["message" := PStr msg]> ∅)));
     error := None |}.

Definition execute_stake (request : ExecuteTransactionRequest)
    (tx_data : gmap string pyval) (private_key : pyval)
  : M (list Call) TransactionResult :=
  let amount := dict_get tx_data "amount" in
  let token := dict_get_default tx_data "token" (PStr "SUI") in
  if negb (truthy amount) then bad_request "Missing amount in transaction data"
  else if truthy private_key then
    try_except
      (_ ← call (C_WalletService private_key) (WalletService sv private_key);
       sender ← call (C_wallet_get_address private_key) (wallet_get_address sv private_key);
       token_type ← lift (TokenType_of token);
       tx_data_dict ← call (C_build_stake_transaction sender amount token_type)
                           (build_stake_transaction sv sender amount token_type);
       result ← call (C_wallet_execute_transaction private_key
                        (transaction_bytes tx_data_dict))
                     (wallet_execute_transaction sv private_key
                        (transaction_bytes tx_data_dict));
       return_or_500 "Stake execution failed: " result)
      (value_error_400 "Wallet error: ")
  else
    try_except
      (token_type ← lift (TokenType_of token);
       tx_bytes_dict ←
         call (C_build_stake_transaction (exec_user_address request) amount token_type)
              (build_stake_transaction sv (exec_user_address request) amount token_type);
       let tx_hex := PyStr.hex (transaction_bytes tx_bytes_dict) in
       mret (ready_for_signing tx_hex
               "Stake transaction built. Sign with your wallet to execute."))
      (value_error_400 "Failed to build stake transaction: ").

Definition execute_unstake (request : ExecuteTransactionRequest)
    (tx_data : gmap string pyval) (private_key : pyval)
  : M (list Call) TransactionResult :=
  let amount := dict_get tx_data "amount" in
  let token := dict_get_default tx_data "token" (PStr "SUI") in
  if negb (truthy amount) then bad_request "Missing amount in transaction data"
  else if truthy private_key then
    try_except
      (_ ← call (C_WalletService private_key) (WalletService sv private_key);
       sender ← call (C_wallet_get_address private_key) (wallet_get_address sv private_key);
       token_type ← lift (TokenType_of token);
       tx_data_dict ← call (C_build_unstake_transaction sender amount token_type)
                           (build_unstake_transaction sv sender amount token_type);
       result ← call (C_wallet_execute_transaction private_key
                        (transaction_bytes tx_data_dict))
                     (wallet_execute_transaction sv private_key
                        (transaction_bytes tx_data_dict));
       return_or_500 "Unstake execution failed: " result)
      (value_error_400 "Wallet error: ")
  else
    try_except
      (token_type ← lift (TokenType_of token);
       tx_bytes_dict ←
         call (C_build_unstake_transaction (exec_user_address request) amount token_type)
              (build_unstake_transaction sv (exec_user_address request) amount token_type);
       let tx_hex := PyStr.hex (transaction_bytes tx_bytes_dict) in
       mret (ready_for_signing tx_hex
               "Unstake transaction built. Sign with your wallet to execute."))
      (value_error_400 "Failed to build unstake transaction: ").

Definition execute_transfer (request : ExecuteTransactionRequest)
    (tx_data : gmap string pyval) (private_key : pyval)
  : M (list Call) TransactionResult :=
  let recipient := dict_get tx_data "recipient" in
  let amount := dict_get tx_data "amount" in
  let token := dict_get_default tx_data "token" (PStr "SUI") in
  if negb (truthy recipient) then
    bad_request "Missing recipient address in transaction data"
  else if negb (truthy amount) then bad_request "Missing amount in transaction data"
  else if truthy private_key then
    try_except
      (_ ← call (C_WalletService private_key) (WalletService sv private_key);
       token_type ← lift (TokenType_of token);
       result ←
         call (C_wallet_build_and_execute_transfer private_key recipient amount token_type)
              (wallet_build_and_execute_transfer sv private_key recipient amount token_type);
       return_or_500 "Transaction execution failed: " result)
      (value_error_400 "Wallet error: ")
  else
    try_except
      (token_type ← lift (TokenType_of token);
       tx_bytes_dict ←
         call (C_build_transfer_transaction (exec_user_address request)
                 recipient amount token_type)
              (build_transfer_transaction sv (exec_user_address request)
                 recipient amount token_type);
       let tx_hex := PyStr.hex (transaction_bytes tx_bytes_dict) in
       mret (ready_for_signing tx_hex
               "Transaction built successfully. Sign with your wallet to execute."))
      (value_error_400 "Failed to build transaction: ").

Definition execute_transaction (request : ExecuteTransactionRequest)
  : M (list Call) TransactionResult :=
  try_except
    (let tx_data := exec_transaction_data request in
     let action := dict_get tx_data "action" in
     let private_key := dict_get tx_data "private_key" in
     if py_eq_str action "stake_token" then execute_stake request tx_data private_key
     else if py_eq_str action "unstake_token" then execute_unstake request tx_data private_key
     else if py_eq_str action "transfer_token" then execute_transfer request tx_data private_key
     else raise (HTTPException HTTP_400_BAD_REQUEST
                   [Lit "Unsupported action: "; Val action]))
    (reraise_or_500 "Internal server error: ").

End Execute.

(** ** The contact vault: [POST /contacts/save], [GET /contacts/list] *)

Record ContactRequest := {
  contact_user_address : string;
  contact_name : option string;
  contact_address : option string;
  contact_notes : option string
}.

Section ContactVault.

(** The encrypted payload is opaque to the vault. *)
Context {Blob : Type}.

(** The process-wide [contact_storage] dict, the blobs held by the blob
    store, and the call log. *)
Record Vault := {
  vault_calls : list Call;
  contact_storage : gmap string string;
  walrus : gmap string Blob
}.

(** The answers of the encryption service and the id the blob store
    assigns to an uploaded blob. *)
Record VaultServices := {
  encrypt_bulk_contacts : string → list ContactRecord → result Blob;
  decrypt_bulk_contacts : string → Blob → result (list ContactRecord);
  upload_blob_id : Blob → result string
}.

Variable vs : VaultServices.

Definition logged (c : Call) (v : Vault) : Vault :=
  {| vault_calls := vault_calls v ++ [c];
     contact_storage := contact_storage v;
     walrus := walrus v |}.

Definition vault_call {A} (c : Call) (r : result A) : M Vault A :=
  λ v, (r, logged c v).

(** [walrus_service.download_blob(blob_id)]. *)
Definition download_blob (blob_id : string) : M Vault Blob := λ v,
  (match walrus v !! blob_id with
   | Some b => Ok b
   | None => Raise (OtherError "blob not found")
   end, logged (C_download_blob blob_id) v).

(** [walrus_service.upload_blob(data)]: on success the store holds the
    blob under the returned id. *)
Definition upload_blob (data : Blob) : M Vault string := λ v,
  match upload_blob_id vs data with
  | Ok blob_id =>
      (Ok blob_id,
       {| vault_calls := vault_calls v ++ [C_upload_blob];
          contact_storage := contact_storage v;
          walrus := <[blob_id := data]> (walrus v) |})
  | Raise e => (Raise e, logged C_upload_blob v)
  end.

(** [contact_storage.get(user_address)] on the shared dict. *)
Definition storage_lookup (ua : string) : M Vault (option string) :=
  λ v, (Ok (contact_storage v !! ua), v).

(** [contact_storage[user_address] = blob_id]. *)
Definition storage_set (ua blob_id : string) : M Vault unit := λ v,
  (Ok tt,
   {| vault_calls := vault_calls v;
      contact_storage := <[ua := blob_id]> (contact_storage v);
      walrus := walrus v |}).

Record SaveResponse := { save_message : string; save_blob_id : string }.

Definition save_contact_body (request : ContactRequest) (name address : string)
  : M Vault SaveResponse :=
  let ua := contact_user_address request in
  let new_contact :=
    {| name := name; address := address; notes := contact_notes request |} in
  stored ← storage_lookup ua;
  encrypted_blob ←
    match stored with
    | Some blob_id =>
        encrypted_data ← download_blob blob_id;
        existing_contacts ←
          vault_call (C_decrypt_bulk_contacts ua)
                     (decrypt_bulk_contacts vs ua encrypted_data);
        let existing_contacts := existing_contacts ++ [new_contact] in
        vault_call (C_encrypt_bulk_contacts ua existing_contacts)
                   (encrypt_bulk_contacts vs ua existing_contacts)
    | None =>
        vault_call (C_encrypt_bulk_contacts ua [new_contact])
                   (encrypt_bulk_contacts vs ua [new_contact])
    end;
  blob_id ← upload_blob encrypted_blob;
  storage_set ua blob_id;;
  mret {| save_message := "Contact saved successfully"; save_blob_id := blob_id |}.

(** The whole body sits in [try: ... except Exception as e: raise
    HTTPException(500, ...)]; there is no [except HTTPException: raise]
    before it. *)
Definition save_contact (request : ContactRequest) : M Vault SaveResponse :=
  try_except
    (match contact_name request, contact_address request with
     | Some name, Some address =>
         if str_truthy name && str_truthy address
         then save_contact_body request name address
         else bad_request "Contact name and address are required"
     | _, _ => bad_request "Contact name and address are required"
     end)
    (λ e, raise (HTTPException HTTP_500_INTERNAL_SERVER_ERROR
                   (Lit "Error saving contact: " :: exn_str e))).

Definition list_contacts (user_address : string) : M Vault (list ContactRecord) :=
  try_except
    (stored ← storage_lookup user_address;
     match stored with
     | None => mret []
     | Some blob_id =>
         encrypted_data ← download_blob blob_id;
         vault_call (C_decrypt_bulk_contacts user_address)
                    (decrypt_bulk_contacts vs user_address encrypted_data)
     end)
    (λ e, raise (HTTPException HTTP_500_INTERNAL_SERVER_ERROR
                   (Lit "Error retrieving contacts: " :: exn_str e))).

(** A run of [/contacts/save] requests, one after the other, on the
    shared vault: the outcome of each and the final state. *)
Fixpoint save_all (requests : list ContactRequest) (v : Vault)
  : list (result SaveResponse) * Vault :=
  match requests with
  | [] => ([], v)
  | r :: rest =>
      let '(out, v') := save_contact r v in
      let '(outs, v'') := save_all rest v' in
      (out :: outs, v'')
  end.

(** What leaves [save_contact] when a required field is missing. *)
Definition rejection_as_500 : exn :=
  HTTPException HTTP_500_INTERNAL_SERVER_ERROR
    [Lit "Error saving contact: "; Lit "400"; Lit ": ";
     Lit "Contact name and address are required"].

(** The vault of a fresh process. *)
Definition empty_vault : Vault :=
  {| vault_calls := []; contact_storage := ∅; walrus := ∅ |}.

(** The record a request asks to save. *)
Definition record_of (r : ContactRequest) : ContactRecord :=
  {| name := default "" (contact_name r);
     address := default "" (contact_address r);
     notes := contact_notes r |}.

(** The records of the requests of user [u], in request order. *)
Definition saved_by (u : string) (requests : list ContactRequest)
  : list ContactRecord :=
  record_of <$> filter (λ r, contact_user_address r = u) requests.

(** What ties the vault to the records [m u] saved so far by each user:
    the blob store only holds blobs under the id it assigned them, and
    the blob a user's entry points to decrypts to that user's records. *)
Definition vault_inv (v : Vault) (m : string → list ContactRecord) : Prop :=
  (∀ id b, walrus v !! id = Some b → upload_blob_id vs b = Ok id)
  ∧ (∀ u, match contact_storage v !! u with
          | None => m u = []
          | Some id =>
              ∃ b, walrus v !! id = Some b
                   ∧ decrypt_bulk_contacts vs u b = Ok (m u)
          end).

End ContactVault.

Arguments Vault : clear implicits.
Arguments VaultServices : clear implicits.

(** The [amount] entry of a response's transaction payload. *)
Definition payload_amount (r : result ChatResponse) : option pyval :=
  match r with
  | Ok resp => transaction_data resp ≫= (λ d, d !! "amount")
  | Raise _ => None
  end.

(** The actions [/execute] knows. *)
Definition is_supported_action (v : pyval) : bool :=
  py_eq_str v "stake_token" || py_eq_str v "unstake_token"
  || py_eq_str v "transfer_token".

(** An entry of the [effects] mapping of a transaction result. *)
Definition effect (r : TransactionResult) (k : string) : option pyval :=
  effects r ≫= (λ d, d !! k).

(** The sender a build call was given. *)
Definition build_sender (c : Call) : option string :=
  match c with
  | C_build_stake_transaction s _ _ | C_build_unstake_transaction s _ _
  | C_build_transfer_transaction s _ _ _ => Some s
  | _ => None
  end.

(** ** Concrete collaborators, for running the handlers on inputs *)

Module Scenario.

Definition intent_of (a : IntentAction) (data : gmap string pyval) : Intent :=
  {| action := a; parsed_data := data;
     confidence := S754_finite false 4503599627370496 (-52);
     clarification_question := None |}.

Definition built : BuiltTransaction :=
  {| transaction_bytes := [Byte.x00; Byte.x1f; Byte.xa0; Byte.xff] |}.

Definition signed : TransactionResult :=
  {| success := true; transaction_digest := Some "9xQ"; effects := None;
     error := None |}.

(** Services that classify every message as [i], rate every dry run
    [risk], report [staked] staked units and the address book [book],
    and derive [wallet_address] from any private key. *)
Definition services (i : Intent) (risk : string) (staked : Z)
    (book : option AddressBook) (wallet_address : string) : Services :=
  {| parse_intent := λ _ _, Ok i;
     generate_dry_run_summary := λ a _ _ g,
       Ok {| action_description := PStr a; risk_level := risk;
             estimated_gas_fee := g |};
     get_balance := λ _ t,
       Ok {| balance_token := t; balance := PInt 5000000000;
             balance_formatted := PStr "5.0" |};
     get_user_stake := λ _ t,
       Ok {| stake_token := t; staked_amount := PInt staked;
             staked_amount_formatted := PInt staked |};
     estimate_gas_fee := λ _, Ok (PInt 1000000);
     get_user_address_book := λ _, Ok book;
     build_create_address_book_tx := λ _,
       Ok (<["transaction_type" := PStr "move_call"]>
          (<["target" := PStr "address_book::create"]> ∅));
     build_add_contact_tx := λ _ _ _ _ _ _,
       Ok (<["transaction_type" := PStr "move_call"]>
          (<["target" := PStr "address_book::add_contact"]> ∅));
     encrypt_contact := λ _ _ _ _, Ok (PStr "sealed");
     build_stake_transaction := λ _ _ _, Ok built;
     build_unstake_transaction := λ _ _ _, Ok built;
     build_transfer_transaction := λ _ _ _ _, Ok built;
     WalletService := λ _, Ok tt;
     wallet_get_address := λ _, Ok wallet_address;
     wallet_execute_transaction := λ _ _, Ok signed;
     wallet_build_and_execute_transfer := λ _ _ _ _, Ok signed;
     os_urandom := λ n, repeat Byte.x00 (Z.to_nat n);
     time_time := 1762128000 |}.

Definition chat (msg : string) : ChatRequest :=
  {| message := msg; user_address := Some "0xabc"; context := None |}.

Definition amount_of (amount token : string) : gmap string pyval :=
  <["amount" := PStr amount]> (<["token" := PStr token]> ∅).

Definition execute_of (data : gmap string pyval) : ExecuteTransactionRequest :=
  {| exec_user_address := "0xabc"; exec_transaction_data := data |}.

(** The [/chat] outcome when the message is classified as action [a]
    with the given parsed fields. *)
Definition chat_as (a : IntentAction) (data : gmap string pyval) (risk : string)
    (staked : Z) : result ChatResponse * list Call :=
  chat_endpoint (services (intent_of a data) risk staked None "0xwallet")
                (chat "...") [].

(** A vault double: a blob is the owner with the records in clear, only
    the owner decrypts it, and the blob id is a numbering of the content. *)
Definition sealed : Type := string * list (string * string * option string).

Definition to_tuple (c : ContactRecord) : string * string * option string :=
  (name c, address c, notes c).

Definition of_tuple (t : string * string * option string) : ContactRecord :=
  {| name := t.1.1; address := t.1.2; notes := t.2 |}.

Definition vault_services : VaultServices sealed :=
  {| encrypt_bulk_contacts := λ ua cs, Ok (ua, to_tuple <$> cs);
     decrypt_bulk_contacts := λ ua b,
       if String.eqb ua b.1 then Ok (of_tuple <$> b.2)
       else Raise (ValueError "decryption failed");
     upload_blob_id := λ b, Ok (pretty (encode b)) |}.

Definition contact (ua name address : string) : ContactRequest :=
  {| contact_user_address := ua; contact_name := Some name;
     contact_address := Some address; contact_notes := None |}.

End Scenario.

(** ** Vocabulary for the properties of the handlers *)

(** Actions whose branch starts by demanding [request.user_address]. *)
Definition needs_address (a : IntentAction) : bool :=
  match a with
  | AMBIGUOUS | UNKNOWN => false
  | _ => true
  end.

(** Actions whose branch can attach a transaction payload. *)
Definition carries_transaction (a : IntentAction) : bool :=
  match a with
  | STAKE_TOKEN | UNSTAKE_TOKEN | TRANSFER_TOKEN | CREATE_ADDRESS_BOOK
  | SAVE_CONTACT => true
  | _ => false
  end.

(** Actions whose branch asks for a dry-run summary. *)
Definition is_monetary (a : IntentAction) : bool :=
  match a with
  | STAKE_TOKEN | UNSTAKE_TOKEN | TRANSFER_TOKEN => true
  | _ => false
  end.

(** Calls that build a transaction for [/execute]. *)
Definition is_execution_build (c : Call) : bool :=
  match c with
  | C_build_stake_transaction _ _ _ | C_build_unstake_transaction _ _ _
  | C_build_transfer_transaction _ _ _ _ => true
  | _ => false
  end.

Definition is_parse_intent (c : Call) : bool :=
  match c with C_parse_intent _ _ => true | _ => false end.

(** Calls to the blob store or to the bulk encryption of the vault. *)
Definition is_vault_call (c : Call) : bool :=
  match c with
  | C_download_blob _ | C_upload_blob | C_decrypt_bulk_contacts _
  | C_encrypt_bulk_contacts _ _ => true
  | _ => false
  end.

(** An entry of a response's transaction payload. *)
Definition payload_field (r : ChatResponse) (k : string) : option pyval :=
  transaction_data r ≫= (λ d, d !! k).

(** An upper-case ASCII letter. *)
Definition is_upper (c : ascii) : bool :=
  let n := N_of_ascii c in ((65 <=? n) && (n <=? 90))%N.

(** The characters of a string. *)
Fixpoint chars (s : string) : list ascii :=
  match s with
  | EmptyString => []
  | String c r => c :: chars r
  end.

(** The records of the requests whose save succeeded, for user [u], in
    request order. *)
Fixpoint saved_ok {A} (u : string) (requests : list ContactRequest)
    (outs : list (result A)) : list ContactRecord :=
  match requests, outs with
  | r :: rest, Ok _ :: outs' =>
      if decide (contact_user_address r = u)
      then record_of r :: saved_ok u rest outs'
      else saved_ok u rest outs'
  | _ :: rest, Raise _ :: outs' => saved_ok u rest outs'
  | _, _ => []
  end.

(** More collaborators to run the handlers against. *)
Module Cases.

(** [sv], with a wallet constructor that rejects every key. *)
Definition with_bad_wallet (sv : Services) (msg : string) : Services :=
  {| parse_intent := parse_intent sv;
     generate_dry_run_summary := generate_dry_run_summary sv;
     get_balance := get_balance sv;
     get_user_stake := get_user_stake sv;
     estimate_gas_fee := estimate_gas_fee sv;
     get_user_address_book := get_user_address_book sv;
     build_create_address_book_tx := build_create_address_book_tx sv;
     build_add_contact_tx := build_add_contact_tx sv;
     encrypt_contact := encrypt_contact sv;
     build_stake_transaction := build_stake_transaction sv;
     build_unstake_transaction := build_unstake_transaction sv;
     build_transfer_transaction := build_transfer_transaction sv;
     WalletService := λ _, Raise (ValueError msg);
     wallet_get_address := wallet_get_address sv;
     wallet_execute_transaction := wallet_execute_transaction sv;
     wallet_build_and_execute_transfer := wallet_build_and_execute_transfer sv;
     os_urandom := os_urandom sv;
     time_time := time_time sv |}.

(** [sv], with a wallet whose submissions all fail with [msg]. *)
Definition with_failing_submission (sv : Services) (msg : string) : Services :=
  {| parse_intent := parse_intent sv;
     generate_dry_run_summary := generate_dry_run_summary sv;
     get_balance := get_balance sv;
     get_user_stake := get_user_stake sv;
     estimate_gas_fee := estimate_gas_fee sv;
     get_user_address_book := get_user_address_book sv;
     build_create_address_book_tx := build_create_address_book_tx sv;
     build_add_contact_tx := build_add_contact_tx sv;
     encrypt_contact := encrypt_contact sv;
     build_stake_transaction := build_stake_transaction sv;
     build_unstake_transaction := build_unstake_transaction sv;
     build_transfer_transaction := build_transfer_transaction sv;
     WalletService := WalletService sv;
     wallet_get_address := wallet_get_address sv;
     wallet_execute_transaction := λ _ _,
       Ok {| success := false; transaction_digest := None; effects := None;
             error := Some msg |};
     wallet_build_and_execute_transfer := λ _ _ _ _,
       Ok {| success := false; transaction_digest := None; effects := None;
             error := Some msg |};
     os_urandom := os_urandom sv;
     time_time := time_time sv |}.

(** [sv], with builders of executable transactions that all raise [e]. *)
Definition with_builder_error (sv : Services) (e : exn) : Services :=
  {| parse_intent := parse_intent sv;
     generate_dry_run_summary := generate_dry_run_summary sv;
     get_balance := get_balance sv;
     get_user_stake := get_user_stake sv;
     estimate_gas_fee := estimate_gas_fee sv;
     get_user_address_book := get_user_address_book sv;
     build_create_address_book_tx := build_create_address_book_tx sv;
     build_add_contact_tx := build_add_contact_tx sv;
     encrypt_contact := encrypt_contact sv;
     build_stake_transaction := λ _ _ _, Raise e;
     build_unstake_transaction := λ _ _ _, Raise e;
     build_transfer_transaction := λ _ _ _ _, Raise e;
     WalletService := WalletService sv;
     wallet_get_address := wallet_get_address sv;
     wallet_execute_transaction := wallet_execute_transaction sv;
     wallet_build_and_execute_transfer := wallet_build_and_execute_transfer sv;
     os_urandom := os_urandom sv;
     time_time := time_time sv |}.

(** The services of the scenarios, classifying every message as [i]. *)
Definition classify (i : Intent) (book : option AddressBook) : Services :=
  Scenario.services i "low" 0 book "0xwallet".

(** A request on behalf of nobody. *)
Definition anonymous (msg : string) : ChatRequest :=
  {| message := msg; user_address := None; context := None |}.

(** A blob store that is down: every upload fails. *)
Definition vault_offline : VaultServices Scenario.sealed :=
  {| encrypt_bulk_contacts := encrypt_bulk_contacts Scenario.vault_services;
     decrypt_bulk_contacts := decrypt_bulk_contacts Scenario.vault_services;
     upload_blob_id := λ _, Raise (OtherError "upload failed") |}.

End Cases.

(** * Properties *)

(** ** Tactics for running a handler symbolically *)

Ltac unfold_monad :=
  unfold mbind, M_bind, mret, M_ret, call, lift, raise, bad_request,
    try_except, reraise_or_500, require_address in *.

(** Case analysis on the next undetermined service answer or test in [H]. *)
Ltac step_in H :=
  match type of H with
  | context [match ?x with _ => _ end] =>
      lazymatch x with
      | context [match _ with _ => _ end] => fail
      | _ => destruct x eqn:?
      end
  end.

Ltac run_in H := repeat (unfold_monad; simpl in H; try step_in H).

(** Membership in an explicit call log, one entry at a time. *)
Ltac split_in H :=
  simpl in H;
  repeat match type of H with
         | _ ∨ _ => destruct H as [H | H]; [try discriminate H |]
         | False => destruct H
         end.

(** ** Numbers *)

Section NumberFacts.
Import PyNum.

Lemma digit_of_char (d : N) :
  (d < 10)%N → digit_of (pretty_N_char d) = Some (Z.of_N d).
Proof.
  intros Hd.
  assert (d = 0 ∨ d = 1 ∨ d = 2 ∨ d = 3 ∨ d = 4 ∨ d = 5 ∨ d = 6 ∨ d = 7
          ∨ d = 8 ∨ d = 9)%N as Hc by lia.
  repeat destruct Hc as [-> | Hc]; try subst d; reflexivity.
Qed.

(** Reading back the digits that [pretty] puts in front of [s]. *)
Lemma int_of_digits_go (x : N) :
  ∃ k : Z, ∀ s acc,
    int_of_digits (pretty_N_go x s) acc = int_of_digits s (acc * k + Z.of_N x).
Proof.
  induction (N.lt_wf_0 x) as [x _ IH].
  destruct (decide (x = 0%N)) as [-> | Hx].
  - exists 1. intros s acc. rewrite pretty_N_go_0. f_equal. lia.
  - destruct (IH (x `div` 10)%N) as [k Hk].
    { apply N.div_lt; lia. }
    exists (10 * k). intros s acc.
    rewrite pretty_N_go_step by lia. rewrite Hk. simpl.
    rewrite digit_of_char by (apply N.mod_lt; lia).
    f_equal.
    pose proof (N.div_mod x 10 ltac:(lia)) as Hdm.
    rewrite Hdm at 3. lia.
Qed.

Lemma int_of_digits_pretty (p : positive) :
  int_of_digits (pretty p) 0 = Some (Z.pos p).
Proof.
  unfold pretty, pretty_positive, pretty, pretty_N.
  destruct (decide (N.pos p = 0%N)) as [H | _]; [discriminate H |].
  destruct (int_of_digits_go (N.pos p)) as [k Hk].
  rewrite Hk. reflexivity.
Qed.

(** [int(str(n)) == n]. *)
Lemma int_of_str_pretty (n : Z) : int_of_str (pretty n) = Ok n.
Proof.
  destruct n as [| p | p]; [reflexivity | |].
  - pose proof (int_of_digits_pretty p) as Hp.
    unfold pretty at 1, pretty_Z. unfold int_of_str.
    destruct (pretty p) as [| c r] eqn:E; [discriminate Hp |].
    simpl in Hp. destruct (digit_of c) as [d |] eqn:Hd; [| discriminate Hp].
    assert (strip_sign (String c r) = (false, String c r)) as ->.
    { unfold strip_sign.
      destruct c as [[] [] [] [] [] [] [] []]; try reflexivity; discriminate Hd. }
    simpl. rewrite Hd, Hp. reflexivity.
  - pose proof (int_of_digits_pretty p) as Hp.
    unfold pretty at 1, pretty_Z. unfold int_of_str. simpl.
    destruct (pretty p) as [| c r] eqn:E; [discriminate Hp |].
    change ("" +:+ String c r) with (String c r).
    rewrite Hp. reflexivity.
Qed.

(** The amount string is the decimal rendering of the converted number. *)
Lemma amount_in_smallest_units (v : pyval) (d : Z) (s : string) :
  amount_in_smallest v d = Ok s →
  ∃ n, smallest_units v d = Ok n ∧ s = pretty n ∧ int_of_str s = Ok n.
Proof.
  unfold amount_in_smallest.
  destruct (smallest_units v d) as [n | e]; [| discriminate].
  intros [= <-]. exists n. auto using int_of_str_pretty.
Qed.

(** The scenario of the spec: 100 SUI is 100000000000 MIST. *)
Example amount_100_SUI : amount_in_smallest (PStr "100") 9 = Ok "100000000000".
Proof. vm_compute. reflexivity. Qed.

Example amount_half_USDC : amount_in_smallest (PStr "0.5") 6 = Ok "500000".
Proof. vm_compute. reflexivity. Qed.

(** [float("0.1")] is the double 0x3FB999999999999A. *)
Example float_tenth :
  py_float (PStr "0.1") = Ok (S754_finite false 7205759403792794 (-56)).
Proof. vm_compute. reflexivity. Qed.

End NumberFacts.

(** C1: the conversion of a decimal amount to smallest units is meant to be
    exact (the amount scaled by 10^d, digits beyond the d-th dropped). At
    the amount 4.1 with the exponent 9 of SUI the code yields 4099999999
    where the exact value is 4100000000: [float("4.1")] lies just below
    4.1, the product with 10^9 rounds to 4099999999.9999995, and [int]
    truncates. A transfer of 4.1 SUI carries that amount in its payload. *)
Theorem amount_4_1_SUI_is_not_exact :
  PyNum.parse_decimal "4.1" = Some (false, 41, 1)
  ∧ PyNum.amount_in_smallest (PStr "4.1") 9 = Ok "4099999999"
  ∧ pretty (PyNum.scaled_exact false 41 1 9) = "4100000000"
  ∧ payload_amount
      (fst (Scenario.chat_as TRANSFER_TOKEN
              (<["recipient" := PStr "0xabc"]> (Scenario.amount_of "4.1" "SUI"))
              "low" 0))
    = Some (PStr "4099999999").
Proof. vm_compute. auto. Qed.

(** C4: the per-token exponent table (9 for SUI, 6 for the stable token) is
    meant to drive the conversion in the stake, unstake and transfer flows
    alike. The transfer flow consults it; the stake and unstake flows
    convert with the exponent 9 whatever the token, so 1 USDC staked or
    unstaked becomes 1000000000 units where the table gives 1000000. *)
Theorem stake_and_unstake_ignore_the_token_exponent :
  payload_amount
    (fst (Scenario.chat_as TRANSFER_TOKEN
            (<["recipient" := PStr "0xabc"]> (Scenario.amount_of "1" "USDC")) "low" 0))
  = Some (PStr "1000000")
  ∧ payload_amount
      (fst (Scenario.chat_as STAKE_TOKEN (Scenario.amount_of "1" "USDC") "low" 0))
    = Some (PStr "1000000000")
  ∧ payload_amount
      (fst (Scenario.chat_as UNSTAKE_TOKEN (Scenario.amount_of "1" "USDC") "low"
              5000000000))
    = Some (PStr "1000000000")
  ∧ PyNum.amount_in_smallest (PStr "1") 6 = Ok "1000000".
Proof. vm_compute. auto. Qed.

(** ** Risk gating of stakes and transfers *)

(** C2: for a message classified as STAKE_TOKEN, or as TRANSFER_TOKEN to a
    recipient not marked as a contact name, from a user with an address:
    once the token is valid and the balance query, the amount conversion,
    the gas estimate and the dry-run summary have answered, the endpoint
    returns a response that carries the summary [d] and a payload, and
    that is ready to execute exactly when the risk level of [d] is not
    "high". *)
Theorem stake_transfer_ready_unless_high (sv : Services) (request : ChatRequest)
    (i : Intent) (ua : string) (token_type : TokenType) (bi : BalanceInfo)
    (amount : string) (gas : pyval) (d : DryRunSummary) :
  let amount_str := dict_get_default (parsed_data i) "amount" (PStr "0") in
  let summary_data (recipient : pyval) : gmap string pyval :=
    <["recipient" := recipient]>
    (<["amount" := PStr amount]>
    (<["token" := PStr (token_value token_type)]> ∅)) in
  parse_intent sv (message request) (user_address request) = Ok i →
  user_address request = Some ua →
  str_truthy ua = true →
  TokenType_of (dict_get_default (parsed_data i) "token" (PStr "SUI")) = Ok token_type →
  get_balance sv ua token_type = Ok bi →
  estimate_gas_fee sv [] = Ok gas →
  (action i = STAKE_TOKEN →
   PyNum.amount_in_smallest amount_str 9 = Ok amount →
   generate_dry_run_summary sv "stake_token" (summary_data (PStr "Staking Pool"))
     (balance bi) gas = Ok d →
   ∃ r, fst (chat_endpoint sv request []) = Ok r
        ∧ dry_run r = Some d
        ∧ ready_to_execute r = negb (String.eqb (risk_level d) "high")
        ∧ is_Some (transaction_data r))
  ∧ (action i = TRANSFER_TOKEN →
     truthy (dict_get_default (parsed_data i) "is_contact_name" (PBool false)) = false →
     PyNum.amount_in_smallest amount_str (if token_eqb token_type SUI then 9 else 6)
       = Ok amount →
     generate_dry_run_summary sv "transfer_token"
       (summary_data (dict_get (parsed_data i) "recipient")) (balance bi) gas = Ok d →
     ∃ r, fst (chat_endpoint sv request []) = Ok r
          ∧ dry_run r = Some d
          ∧ ready_to_execute r = negb (String.eqb (risk_level d) "high")
          ∧ is_Some (transaction_data r)).
Proof.
  intros amount_str summary_data Hparse Hua Htruthy Htoken Hbal Hgas.
  subst amount_str summary_data.
  unfold chat_endpoint, dispatch. unfold_monad. rewrite Hparse. simpl.
  split.
  - intros Ha Hamount Hsum. rewrite Ha.
    unfold handle_stake_token. unfold_monad.
    rewrite Hua, Htruthy. simpl. rewrite Htoken. simpl. rewrite Hbal. simpl.
    rewrite Hamount. simpl. rewrite Hgas. simpl. rewrite Hsum. simpl.
    eexists. split; [reflexivity |]. simpl.
    destruct (String.eqb (risk_level d) "high"); simpl; eauto.
  - intros Ha Hname Hamount Hsum. rewrite Ha.
    unfold handle_transfer_token. unfold_monad.
    rewrite Hua, Htruthy. simpl. rewrite Hname. simpl.
    rewrite Htoken. simpl. rewrite Hbal. simpl.
    rewrite Hamount. simpl. rewrite Hgas. simpl. rewrite Hsum. simpl.
    eexists. split; [reflexivity |]. simpl.
    destruct (String.eqb (risk_level d) "high"); simpl; eauto.
Qed.

(** A stake and a transfer, each rated "high" (not ready) and rated
    otherwise (ready). *)
Lemma stake_transfer_ready_unless_high_witness :
  let stake := Scenario.amount_of "2" "SUI" in
  let transfer := <["recipient" := PStr "0xdef"]> (Scenario.amount_of "2.5" "USDC") in
  let verdict (a : IntentAction) (data : gmap string pyval) (risk : string) :=
    match fst (Scenario.chat_as a data risk 0) with
    | Ok r => Some (risk_level <$> dry_run r, ready_to_execute r)
    | Raise _ => None
    end in
  verdict STAKE_TOKEN stake "high" = Some (Some "high", false)
  ∧ verdict STAKE_TOKEN stake "low" = Some (Some "low", true)
  ∧ verdict TRANSFER_TOKEN transfer "high" = Some (Some "high", false)
  ∧ verdict TRANSFER_TOKEN transfer "medium" = Some (Some "medium", true).
Proof.
  intros stake transfer verdict.
  assert (∀ a data risk (d : DryRunSummary),
            risk_level d = risk →
            (∃ r, fst (Scenario.chat_as a data risk 0) = Ok r
                  ∧ dry_run r = Some d
                  ∧ ready_to_execute r = negb (String.eqb (risk_level d) "high")
                  ∧ is_Some (transaction_data r)) →
            verdict a data risk = Some (Some risk, negb (String.eqb risk "high")))
    as Hverdict.
  { intros a data risk d <- (r & Hr & Hd & Hready & _).
    unfold verdict. rewrite Hr, Hd, Hready. reflexivity. }
  split; [| split; [| split]].
  - apply (Hverdict STAKE_TOKEN stake "high"
             {| action_description := PStr "stake_token"; risk_level := "high";
                estimated_gas_fee := PInt 1000000 |} eq_refl).
    refine (proj1 (stake_transfer_ready_unless_high _ (Scenario.chat "...")
                     (Scenario.intent_of STAKE_TOKEN stake) "0xabc" SUI _
                     "2000000000" _ _ _ _ _ _ _ _) _ _ _); reflexivity.
  - apply (Hverdict STAKE_TOKEN stake "low"
             {| action_description := PStr "stake_token"; risk_level := "low";
                estimated_gas_fee := PInt 1000000 |} eq_refl).
    refine (proj1 (stake_transfer_ready_unless_high _ (Scenario.chat "...")
                     (Scenario.intent_of STAKE_TOKEN stake) "0xabc" SUI _
                     "2000000000" _ _ _ _ _ _ _ _) _ _ _); reflexivity.
  - apply (Hverdict TRANSFER_TOKEN transfer "high"
             {| action_description := PStr "transfer_token"; risk_level := "high";
                estimated_gas_fee := PInt 1000000 |} eq_refl).
    refine (proj2 (stake_transfer_ready_unless_high _ (Scenario.chat "...")
                     (Scenario.intent_of TRANSFER_TOKEN transfer) "0xabc" USDC _
                     "2500000" _ _ _ _ _ _ _ _) _ _ _ _); reflexivity.
  - apply (Hverdict TRANSFER_TOKEN transfer "medium"
             {| action_description := PStr "transfer_token"; risk_level := "medium";
                estimated_gas_fee := PInt 1000000 |} eq_refl).
    refine (proj2 (stake_transfer_ready_unless_high _ (Scenario.chat "...")
                     (Scenario.intent_of TRANSFER_TOKEN transfer) "0xabc" USDC _
                     "2500000" _ _ _ _ _ _ _ _) _ _ _ _); reflexivity.
Defined.

(** ** The staked-amount check of unstaking *)

(** C3: an unstake is meant to be refused exactly when the requested
    amount, in smallest units, exceeds the staked amount. The check runs
    on the number the conversion yields, so it inherits the conversion's
    defects. Asking 4.1 SUI (4100000000 units) with 4099999999 staked is
    above the stake, yet the converted 4099999999 passes and the response
    is ready with a payload. Asking 1 USDC (1000000 units at exponent 6)
    with 5000000 staked is within the stake, yet the exponent 9 turns it
    into 1000000000 and the response is refused without dry run. *)
Theorem unstake_check_inherits_the_conversion :
  PyNum.scaled_exact false 41 1 9 > 4099999999
  ∧ (∃ r, fst (Scenario.chat_as UNSTAKE_TOKEN (Scenario.amount_of "4.1" "SUI") "low"
                 4099999999) = Ok r
          ∧ ready_to_execute r = true
          ∧ payload_amount (Ok r) = Some (PStr "4099999999"))
  ∧ PyNum.scaled_exact false 1 0 6 ≤ 5000000
  ∧ (∃ r, fst (Scenario.chat_as UNSTAKE_TOKEN (Scenario.amount_of "1" "USDC") "low"
                 5000000) = Ok r
          ∧ ready_to_execute r = false ∧ dry_run r = None
          ∧ transaction_data r = None).
Proof.
  split; [vm_compute; reflexivity |].
  split; [eexists; split; [vm_compute; reflexivity |]; split; reflexivity |].
  split; [vm_compute; discriminate |].
  eexists. split; [vm_compute; reflexivity |]. repeat split.
Qed.

(** ** Address-book creation *)

(** C8: for a message classified as CREATE_ADDRESS_BOOK from a user with an
    address: if the existence check reports a book, the response is not
    ready, has no transaction payload, and no build call was issued; if it
    reports none and the build call answers, the response is ready, has a
    payload, and exactly one build call was issued. *)
Theorem create_address_book_once (sv : Services) (request : ChatRequest)
    (i : Intent) (ua : string) :
  parse_intent sv (message request) (user_address request) = Ok i →
  action i = CREATE_ADDRESS_BOOK →
  user_address request = Some ua →
  str_truthy ua = true →
  (∀ book, get_user_address_book sv ua = Ok (Some book) →
     ∃ r calls, chat_endpoint sv request [] = (Ok r, calls)
       ∧ ready_to_execute r = false ∧ transaction_data r = None
       ∧ length (List.filter is_build_create_address_book calls) = 0%nat)
  ∧ (get_user_address_book sv ua = Ok None →
     is_ok (build_create_address_book_tx sv ua) = true →
     ∃ r calls, chat_endpoint sv request [] = (Ok r, calls)
       ∧ ready_to_execute r = true ∧ is_Some (transaction_data r)
       ∧ length (List.filter is_build_create_address_book calls) = 1%nat).
Proof.
  intros Hparse Ha Hua Htruthy.
  unfold chat_endpoint, dispatch. unfold_monad.
  rewrite Hparse. simpl. rewrite Ha.
  unfold handle_create_address_book. unfold_monad.
  rewrite Hua, Htruthy. simpl.
  split.
  - intros book ->. simpl. do 2 eexists. repeat split.
  - intros -> Hbuild. simpl.
    destruct (build_create_address_book_tx sv ua) as [txr | e];
      [| discriminate Hbuild].
    simpl. do 2 eexists. repeat split. simpl. eauto.
Qed.

(** The second request of a user whose book exists, and the first request
    of a user without one. *)
Lemma create_address_book_once_witness :
  (∃ r calls,
      chat_endpoint
        (Scenario.services (Scenario.intent_of CREATE_ADDRESS_BOOK ∅) "low" 0
           (Some {| object_id := "0x5b1e0c3a9f2d4471aa" |}) "0xwallet")
        (Scenario.chat "Create my address book") [] = (Ok r, calls)
      ∧ ready_to_execute r = false ∧ transaction_data r = None
      ∧ length (List.filter is_build_create_address_book calls) = 0%nat)
  ∧ (∃ r calls,
        chat_endpoint
          (Scenario.services (Scenario.intent_of CREATE_ADDRESS_BOOK ∅) "low" 0
             None "0xwallet")
          (Scenario.chat "Create my address book") [] = (Ok r, calls)
        ∧ ready_to_execute r = true ∧ is_Some (transaction_data r)
        ∧ length (List.filter is_build_create_address_book calls) = 1%nat).
Proof.
  split.
  - refine (proj1 (create_address_book_once _ (Scenario.chat "Create my address book")
                     _ "0xabc" _ _ _ _) _ _); reflexivity.
  - refine (proj2 (create_address_book_once _ (Scenario.chat "Create my address book")
                     _ "0xabc" _ _ _ _) _ _); reflexivity.
Defined.

(** ** The transaction executor *)

Lemma py_eq_str_true (v : pyval) (s : string) :
  py_eq_str v s = true → v = PStr s.
Proof.
  destruct v; simpl; try discriminate.
  intros H. apply String.eqb_eq in H. congruence.
Qed.

Ltac unfold_execute :=
  unfold execute_transaction, execute_stake, execute_unstake, execute_transfer,
    value_error_400, return_or_500;
  unfold_monad.

(** C7: a request to [/execute] whose action is not one of the three
    supported ones, or whose amount is missing, or (for a transfer) whose
    recipient is missing, is rejected with status 400 and the call log is
    left as it was: no service was invoked. *)
Theorem execute_rejects_before_any_call (sv : Services)
    (request : ExecuteTransactionRequest) (log : list Call) :
  let tx_data := exec_transaction_data request in
  is_supported_action (dict_get tx_data "action") = false
  ∨ (is_supported_action (dict_get tx_data "action") = true
     ∧ truthy (dict_get tx_data "amount") = false)
  ∨ (py_eq_str (dict_get tx_data "action") "transfer_token" = true
     ∧ truthy (dict_get tx_data "recipient") = false) →
  ∃ detail,
    execute_transaction sv request log
    = (Raise (HTTPException HTTP_400_BAD_REQUEST detail), log).
Proof.
  intros tx_data. subst tx_data. unfold is_supported_action. unfold_execute.
  intros [Hno | [[Hyes Hamount] | [Htransfer Hrecipient]]].
  - apply orb_false_elim in Hno as [Hno Ht]. apply orb_false_elim in Hno as [Hs Hu].
    rewrite Hs, Hu, Ht. simpl. eauto.
  - rewrite Hamount. simpl.
    destruct (py_eq_str _ "stake_token"); simpl; [eauto |].
    destruct (py_eq_str _ "unstake_token"); simpl; [eauto |].
    destruct (py_eq_str _ "transfer_token"); simpl; [| discriminate Hyes].
    destruct (truthy (dict_get _ "recipient")); simpl; eauto.
  - rewrite (py_eq_str_true _ _ Htransfer). simpl.
    rewrite Hrecipient. simpl. eauto.
Qed.

(** A stake without an amount, sent after other calls were logged. *)
Lemma execute_rejects_before_any_call_witness :
  ∃ detail,
    execute_transaction
      (Scenario.services (Scenario.intent_of UNKNOWN ∅) "low" 0 None "0xwallet")
      (Scenario.execute_of (<["action" := PStr "stake_token"]> ∅))
      [C_get_balance "0xabc" SUI]
    = (Raise (HTTPException HTTP_400_BAD_REQUEST detail), [C_get_balance "0xabc" SUI]).
Proof.
  apply (execute_rejects_before_any_call
           (Scenario.services (Scenario.intent_of UNKNOWN ∅) "low" 0 None "0xwallet")
           (Scenario.execute_of (<["action" := PStr "stake_token"]> ∅))).
  right. left. split; reflexivity.
Defined.

(** C6: without a private key, for a stake, unstake or transfer whose
    required fields are present and whose transaction gets built, the
    result has [success = true], [effects.status = "ready_for_signing"]
    and [effects.transaction_bytes] the hexadecimal text of the built
    bytes; the only service invoked is the builder, never the wallet. *)
Theorem client_signing_builds_only (sv : Services)
    (request : ExecuteTransactionRequest) (tt : TokenType) (built : BuiltTransaction) :
  let tx_data := exec_transaction_data request in
  let amount := dict_get tx_data "amount" in
  truthy (dict_get tx_data "private_key") = false →
  truthy amount = true →
  TokenType_of (dict_get_default tx_data "token" (PStr "SUI")) = Ok tt →
  (py_eq_str (dict_get tx_data "action") "stake_token" = true
   ∧ build_stake_transaction sv (exec_user_address request) amount tt = Ok built)
  ∨ (py_eq_str (dict_get tx_data "action") "unstake_token" = true
     ∧ build_unstake_transaction sv (exec_user_address request) amount tt = Ok built)
  ∨ (py_eq_str (dict_get tx_data "action") "transfer_token" = true
     ∧ truthy (dict_get tx_data "recipient") = true
     ∧ build_transfer_transaction sv (exec_user_address request)
         (dict_get tx_data "recipient") amount tt = Ok built) →
  ∃ r calls,
    execute_transaction sv request [] = (Ok r, calls)
    ∧ success r = true
    ∧ effect r "status" = Some (PStr "ready_for_signing")
    ∧ effect r "transaction_bytes" = Some (PStr (PyStr.hex (transaction_bytes built)))
    ∧ forallb (λ c, negb (is_wallet_call c)) calls = true.
Proof.
  intros tx_data amount Hkey Hamount Htoken Hcase.
  subst tx_data amount. unfold_execute.
  destruct Hcase as [[Ha Hb] | [[Ha Hb] | [Ha [Hr Hb]]]];
    rewrite (py_eq_str_true _ _ Ha); simpl;
    rewrite ?Hr, Hamount, Hkey; simpl; rewrite Htoken; simpl; rewrite Hb; simpl;
    do 2 eexists; (split; [reflexivity |]); repeat split.
Qed.

(** The payload of the spec's scenario, sent without a private key. *)
Lemma client_signing_builds_only_witness :
  ∃ r calls,
    execute_transaction
      (Scenario.services (Scenario.intent_of UNKNOWN ∅) "low" 0 None "0xwallet")
      (Scenario.execute_of
         (<["action" := PStr "transfer_token"]>
          (<["recipient" := PStr "0xabc"]> (Scenario.amount_of "100000000000" "SUI"))))
      [] = (Ok r, calls)
    ∧ success r = true
    ∧ effect r "status" = Some (PStr "ready_for_signing")
    ∧ effect r "transaction_bytes" = Some (PStr "001fa0ff")
    ∧ forallb (λ c, negb (is_wallet_call c)) calls = true.
Proof.
  apply (client_signing_builds_only
           (Scenario.services (Scenario.intent_of UNKNOWN ∅) "low" 0 None "0xwallet")
           (Scenario.execute_of
              (<["action" := PStr "transfer_token"]>
               (<["recipient" := PStr "0xabc"]>
                  (Scenario.amount_of "100000000000" "SUI"))))
           SUI Scenario.built); try reflexivity.
  right. right. repeat split; reflexivity.
Defined.

(** C10: for a stake or unstake with its amount present, the one build call
    of the request names as sender the address of the wallet made from the
    private key when a key is supplied, and [request.user_address] when no
    key is supplied. *)
Theorem build_sender_by_signing_path (sv : Services)
    (request : ExecuteTransactionRequest) (token_type : TokenType) :
  let tx_data := exec_transaction_data request in
  let private_key := dict_get tx_data "private_key" in
  py_eq_str (dict_get tx_data "action") "stake_token" = true
  ∨ py_eq_str (dict_get tx_data "action") "unstake_token" = true →
  truthy (dict_get tx_data "amount") = true →
  TokenType_of (dict_get_default tx_data "token" (PStr "SUI")) = Ok token_type →
  (truthy private_key = true →
   ∀ wallet_address,
     WalletService sv private_key = Ok () →
     wallet_get_address sv private_key = Ok wallet_address →
     omap build_sender (snd (execute_transaction sv request [])) = [wallet_address])
  ∧ (truthy private_key = false →
     omap build_sender (snd (execute_transaction sv request []))
     = [exec_user_address request]).
Proof.
  intros tx_data private_key Haction Hamount Htoken.
  subst tx_data private_key. unfold_execute.
  destruct Haction as [Ha | Ha]; rewrite (py_eq_str_true _ _ Ha); simpl;
    rewrite Hamount; simpl.
  all: split; [intros Hkey wallet_address Hwallet Haddress | intros Hkey].
  all: rewrite Hkey; simpl; rewrite ?Hwallet; simpl; rewrite ?Haddress; simpl;
    rewrite Htoken; simpl.
  all: repeat match goal with
         | |- context [match ?x with _ => _ end] =>
             lazymatch x with
             | context [match _ with _ => _ end] => fail
             | _ => destruct x eqn:?
             end; simpl
         end.
  all: reflexivity.
Qed.

(** A stake signed by the server with a key whose address is "0xwallet",
    sent by the user "0xabc", and the same stake left to the client. *)
Lemma build_sender_by_signing_path_witness :
  omap build_sender
    (snd (execute_transaction
            (Scenario.services (Scenario.intent_of UNKNOWN ∅) "low" 0 None "0xwallet")
            (Scenario.execute_of
               (<["action" := PStr "stake_token"]>
                (<["private_key" := PStr "suiprivkey1q"]>
                   (Scenario.amount_of "2000000000" "SUI"))))
            []))
  = ["0xwallet"]
  ∧ omap build_sender
      (snd (execute_transaction
              (Scenario.services (Scenario.intent_of UNKNOWN ∅) "low" 0 None "0xwallet")
              (Scenario.execute_of
                 (<["action" := PStr "stake_token"]>
                    (Scenario.amount_of "2000000000" "SUI")))
              []))
    = ["0xabc"].
Proof.
  split.
  - refine (proj1 (build_sender_by_signing_path _
                     (Scenario.execute_of
                        (<["action" := PStr "stake_token"]>
                         (<["private_key" := PStr "suiprivkey1q"]>
                            (Scenario.amount_of "2000000000" "SUI"))))
                     SUI _ _ _) _ "0xwallet" _ _);
      first [reflexivity | left; reflexivity].
  - refine (proj2 (build_sender_by_signing_path _
                     (Scenario.execute_of
                        (<["action" := PStr "stake_token"]>
                           (Scenario.amount_of "2000000000" "SUI")))
                     SUI _ _ _) _);
      first [reflexivity | left; reflexivity].
Defined.

(** ** The contact vault *)

Section VaultFacts.

Context {Blob : Type} (vs : VaultServices Blob).

(** The rejection raised for a missing field is caught by the handler's
    own [except Exception] and leaves as a 500; no service is invoked and
    the vault is untouched. *)
Lemma save_contact_missing_field (request : ContactRequest) (v : Vault Blob) :
  opt_truthy (contact_name request) = false
  ∨ opt_truthy (contact_address request) = false →
  save_contact vs request v = (Raise rejection_as_500, v).
Proof.
  unfold save_contact, opt_truthy. unfold_monad.
  destruct (contact_name request) as [n |],
           (contact_address request) as [a |]; simpl;
    intros [H | H]; try discriminate H; try reflexivity;
    rewrite H, ?andb_false_r; reflexivity.
Qed.

End VaultFacts.

(** C5: a [/contacts/save] request without a name or an address is meant
    to be rejected with status 400. The handler raises that rejection
    inside its own [try], whose [except Exception] turns it into a 500: an
    empty name gets status 500; no storage or encryption call is made. *)
Theorem save_contact_empty_name_gets_500 :
  let outcome :=
    save_contact Scenario.vault_services
      {| contact_user_address := "0xabc"; contact_name := Some "";
         contact_address := Some "0x1"; contact_notes := None |}
      empty_vault in
  status_of (fst outcome) = Some HTTP_500_INTERNAL_SERVER_ERROR
  ∧ status_of (fst outcome) ≠ Some HTTP_400_BAD_REQUEST
  ∧ forallb (λ c, negb (is_storage_or_encryption_call c)) (vault_calls (snd outcome))
    = true.
Proof.
  intros outcome. subst outcome.
  rewrite save_contact_missing_field by (left; reflexivity).
  simpl. repeat split. discriminate.
Qed.

Section VaultContract.

Context {Blob : Type} (vs : VaultServices Blob).

(** The encryption service decrypts what it encrypted for the same user. *)
Hypothesis seal_roundtrip : ∀ ua cs b,
  encrypt_bulk_contacts vs ua cs = Ok b → decrypt_bulk_contacts vs ua b = Ok cs.

(** The blob store is content-addressed: one id, one content. *)
Hypothesis blob_id_content : ∀ b b' id,
  upload_blob_id vs b = Ok id → upload_blob_id vs b' = Ok id → b = b'.

Lemma vault_inv_ext (v : Vault Blob) (m m' : string → list ContactRecord) :
  (∀ u, m u = m' u) → vault_inv vs v m → vault_inv vs v m'.
Proof.
  intros Heq [Hstore Hmap]. split; [exact Hstore |].
  intros u. specialize (Hmap u). rewrite <- Heq. exact Hmap.
Qed.

Lemma vault_inv_empty : vault_inv vs empty_vault (λ _, []).
Proof.
  split.
  - intros id b H. simpl in H. rewrite lookup_empty in H. discriminate H.
  - intros u. simpl. rewrite lookup_empty. reflexivity.
Qed.

(** Uploading [b'] and pointing [ua] at it keeps the invariant, with
    [cs'] as the records of [ua]. *)
Lemma vault_inv_store (v : Vault Blob) (m : string → list ContactRecord)
    (log : list Call) (ua id' : string) (b' : Blob) (cs' : list ContactRecord) :
  vault_inv vs v m →
  upload_blob_id vs b' = Ok id' →
  decrypt_bulk_contacts vs ua b' = Ok cs' →
  vault_inv vs
    {| vault_calls := log;
       contact_storage := <[ua := id']> (contact_storage v);
       walrus := <[id' := b']> (walrus v) |}
    (λ u, if decide (u = ua) then cs' else m u).
Proof.
  intros [Hstore Hmap] Hup Hdec. split; simpl.
  - intros id b. rewrite lookup_insert.
    destruct (decide (id' = id)) as [<- | _]; [intros [= <-]; exact Hup | apply Hstore].
  - intros u. rewrite lookup_insert.
    destruct (decide (ua = u)) as [<- | Hne].
    + rewrite decide_True by reflexivity.
      exists b'. rewrite lookup_insert_eq. auto.
    + rewrite decide_False by congruence.
      specialize (Hmap u).
      destruct (contact_storage v !! u) as [id |]; [| exact Hmap].
      destruct Hmap as (b & Hb & Hd). exists b. split; [| exact Hd].
      rewrite lookup_insert.
      destruct (decide (id' = id)) as [<- | _]; [| exact Hb].
      f_equal. eauto.
Qed.

(** One successful save appends the request's record to its user's. *)
Lemma save_contact_inv (v v' : Vault Blob) (m : string → list ContactRecord)
    (r : ContactRequest) (resp : SaveResponse) :
  vault_inv vs v m →
  save_contact vs r v = (Ok resp, v') →
  vault_inv vs v'
    (λ u, if decide (u = contact_user_address r)
          then m u ++ [record_of r] else m u).
Proof.
  intros Hinv. pose proof Hinv as [Hstore Hmap].
  unfold save_contact, save_contact_body, storage_lookup, storage_set,
    upload_blob, download_blob, vault_call, record_of.
  unfold_monad.
  destruct (contact_name r) as [n |]; [| discriminate].
  destruct (contact_address r) as [a |]; [| discriminate].
  destruct (str_truthy n && str_truthy a); [| discriminate].
  simpl. specialize (Hmap (contact_user_address r)).
  destruct (contact_storage v !! contact_user_address r) as [id |]; simpl.
  - destruct Hmap as (b & Hb & Hd). rewrite Hb, Hd. simpl.
    destruct (encrypt_bulk_contacts vs _ _) as [b' |] eqn:Henc; [| discriminate].
    simpl. destruct (upload_blob_id vs b') as [id' |] eqn:Hup; [| discriminate].
    simpl. intros [= <- <-].
    eapply vault_inv_ext; [| eapply vault_inv_store; eauto].
    intros u. simpl. destruct (decide (u = contact_user_address r)) as [-> | _];
      reflexivity.
  - destruct (encrypt_bulk_contacts vs _ _) as [b' |] eqn:Henc; [| discriminate].
    simpl. destruct (upload_blob_id vs b') as [id' |] eqn:Hup; [| discriminate].
    simpl. intros [= <- <-].
    eapply vault_inv_ext; [| eapply vault_inv_store; eauto].
    intros u. simpl. destruct (decide (u = contact_user_address r)) as [-> | _];
      [rewrite Hmap |]; reflexivity.
Qed.

(** A run of successful saves appends each user's records in order. *)
Lemma save_all_inv (requests : list ContactRequest) :
  ∀ (v v' : Vault Blob) (m : string → list ContactRecord) outs,
    vault_inv vs v m →
    save_all vs requests v = (outs, v') →
    Forall (λ o, is_ok o = true) outs →
    vault_inv vs v' (λ u, m u ++ saved_by u requests).
Proof.
  induction requests as [| r rest IH]; intros v v' m outs Hinv Hrun Hok.
  - injection Hrun as <- <-.
    apply (vault_inv_ext v m); [| exact Hinv].
    intros u. unfold saved_by. simpl. rewrite app_nil_r. reflexivity.
  - simpl in Hrun.
    destruct (save_contact vs r v) as [out v1] eqn:Hsave.
    destruct (save_all vs rest v1) as [outs' v2] eqn:Hrest.
    injection Hrun as <- <-.
    apply Forall_cons in Hok as [Hout Hok].
    destruct out as [resp | e]; [| discriminate Hout].
    pose proof (save_contact_inv _ _ _ _ _ Hinv Hsave) as Hinv1.
    pose proof (IH _ _ _ _ Hinv1 Hrest Hok) as Hinv2.
    eapply vault_inv_ext; [| exact Hinv2].
    intros u. simpl. unfold saved_by. rewrite filter_cons.
    destruct (decide (contact_user_address r = u)) as [<- | Hne].
    + rewrite decide_True by reflexivity.
      rewrite fmap_cons, <- app_assoc. reflexivity.
    + rewrite decide_False by congruence. reflexivity.
Qed.

(** Listing returns the records the invariant speaks of. *)
Lemma list_contacts_inv (v : Vault Blob) (m : string → list ContactRecord)
    (u : string) :
  vault_inv vs v m → fst (list_contacts vs u v) = Ok (m u).
Proof.
  intros [_ Hmap]. specialize (Hmap u).
  unfold list_contacts, storage_lookup, download_blob, vault_call.
  unfold_monad.
  destruct (contact_storage v !! u) as [id |]; simpl.
  - destruct Hmap as (b & -> & ->). reflexivity.
  - rewrite Hmap. reflexivity.
Qed.

End VaultContract.

(** C9: with an encryption service that decrypts what it encrypted and a
    content-addressed blob store, after any run of [/contacts/save]
    requests that all succeeded, starting from an empty vault, listing the
    contacts of a user returns the records of that user's requests, all of
    them, in order, repeated ones included; and the blob that the user's
    entry points to decrypts to exactly these records. *)
Theorem saved_contacts_accumulate {Blob : Type} (vs : VaultServices Blob)
    (requests : list ContactRequest) (outs : list (result SaveResponse))
    (v : Vault Blob) (u : string) :
  (∀ ua cs b, encrypt_bulk_contacts vs ua cs = Ok b →
              decrypt_bulk_contacts vs ua b = Ok cs) →
  (∀ b b' id, upload_blob_id vs b = Ok id → upload_blob_id vs b' = Ok id → b = b') →
  save_all vs requests empty_vault = (outs, v) →
  Forall (λ o, is_ok o = true) outs →
  fst (list_contacts vs u v) = Ok (saved_by u requests)
  ∧ (saved_by u requests ≠ [] →
     ∃ id b, contact_storage v !! u = Some id ∧ walrus v !! id = Some b
             ∧ decrypt_bulk_contacts vs u b = Ok (saved_by u requests)).
Proof.
  intros Hseal Hstore Hrun Hok.
  pose proof (save_all_inv vs Hseal Hstore requests _ _ _ _
                (vault_inv_empty vs) Hrun Hok) as Hinv.
  simpl in Hinv. split.
  - apply (list_contacts_inv vs _ _ u Hinv).
  - intros Hne. destruct Hinv as [_ Hmap]. specialize (Hmap u).
    destruct (contact_storage v !! u) as [id |]; [| contradiction].
    destruct Hmap as (b & Hb & Hd). eauto.
Qed.

Section ScenarioVault.
Import Scenario.

Lemma of_to_tuple (cs : list ContactRecord) : of_tuple <$> (to_tuple <$> cs) = cs.
Proof.
  induction cs as [| [n a o] cs IH]; [reflexivity |].
  rewrite !fmap_cons, IH. reflexivity.
Qed.

Lemma scenario_seal_roundtrip (ua : string) (cs : list ContactRecord) (b : sealed) :
  encrypt_bulk_contacts vault_services ua cs = Ok b →
  decrypt_bulk_contacts vault_services ua b = Ok cs.
Proof.
  simpl. intros [= <-]. simpl.
  rewrite String.eqb_refl, of_to_tuple. reflexivity.
Qed.

Lemma scenario_blob_id_content (b b' : sealed) (id : string) :
  upload_blob_id vault_services b = Ok id →
  upload_blob_id vault_services b' = Ok id → b = b'.
Proof.
  simpl. intros [= <-] [= H].
  apply (inj pretty) in H. apply (inj encode) in H. congruence.
Qed.

End ScenarioVault.

(** Mom, then Bob, then Mom again for one user, with another user's save in
    between: the listing has the three records, in order. *)
Lemma saved_contacts_accumulate_witness :
  let requests :=
    [Scenario.contact "0xabc" "Mom" "0x11"; Scenario.contact "0xdef" "Eve" "0x22";
     Scenario.contact "0xabc" "Bob" "0x33"; Scenario.contact "0xabc" "Mom" "0x11"] in
  let v := snd (save_all Scenario.vault_services requests empty_vault) in
  fst (list_contacts Scenario.vault_services "0xabc" v)
  = Ok [{| name := "Mom"; address := "0x11"; notes := None |};
        {| name := "Bob"; address := "0x33"; notes := None |};
        {| name := "Mom"; address := "0x11"; notes := None |}].
Proof.
  intros requests v.
  refine (proj1 (saved_contacts_accumulate Scenario.vault_services requests
                   (fst (save_all Scenario.vault_services requests empty_vault))
                   v "0xabc" scenario_seal_roundtrip scenario_blob_id_content _ _)).
  - apply surjective_pairing.
  - vm_compute. repeat constructor.
Defined.

(** * Further properties of the handlers *)

(** ** [/chat]: what every branch keeps *)

Ltac unfold_handlers :=
  unfold handle_ambiguous, handle_get_balance, handle_get_stake_info,
    handle_stake_token, handle_unstake_token, handle_transfer_token,
    handle_create_address_book, handle_save_contact, handle_list_contacts,
    no_dry_run in *.

(** X1: a message classified as an action other than AMBIGUOUS or UNKNOWN,
    sent without a user address (absent or empty), is rejected with status
    400 and the classifier is the only service that was invoked. *)
Theorem chat_without_address_is_400 (sv : Services) (request : ChatRequest)
    (i : Intent) :
  parse_intent sv (message request) (user_address request) = Ok i →
  needs_address (action i) = true →
  opt_truthy (user_address request) = false →
  ∃ detail,
    chat_endpoint sv request []
    = (Raise (HTTPException HTTP_400_BAD_REQUEST detail),
       [C_parse_intent (message request) (user_address request)]).
Proof.
  intros Hparse Hneeds Hnone.
  unfold chat_endpoint, dispatch. unfold_monad. rewrite Hparse. simpl.
  unfold opt_truthy in Hnone.
  destruct (action i); try discriminate Hneeds; unfold_handlers; unfold_monad;
    destruct (user_address request) as [ua |]; rewrite ?Hnone; simpl; eauto.
Qed.

Lemma chat_without_address_is_400_witness :
  ∃ detail,
    chat_endpoint
      (Cases.classify (Scenario.intent_of GET_BALANCE ∅) None)
      (Cases.anonymous "What's my USDC balance?") []
    = (Raise (HTTPException HTTP_400_BAD_REQUEST detail),
       [C_parse_intent "What's my USDC balance?" None]).
Proof.
  apply (chat_without_address_is_400
           (Cases.classify (Scenario.intent_of GET_BALANCE ∅) None)
           (Cases.anonymous "What's my USDC balance?")
           (Scenario.intent_of GET_BALANCE ∅)); reflexivity.
Defined.

(** X2: a response of [/chat] echoes the classified intent; it carries a
    transaction payload only for the five actions that lead to an on-chain
    call, is ready to execute only with a payload, and has a dry run
    exactly when it is a stake, unstake or transfer with a payload. *)
Theorem chat_response_shape (sv : Services) (request : ChatRequest)
    (r : ChatResponse) (calls : list Call) :
  chat_endpoint sv request [] = (Ok r, calls) →
  parse_intent sv (message request) (user_address request) = Ok (intent r)
  ∧ (is_Some (transaction_data r) → carries_transaction (action (intent r)) = true)
  ∧ (ready_to_execute r = true → is_Some (transaction_data r))
  ∧ (is_Some (dry_run r)
     ↔ is_monetary (action (intent r)) = true ∧ is_Some (transaction_data r)).
Proof.
  intros Hrun. unfold chat_endpoint, dispatch in Hrun. unfold_monad.
  destruct (parse_intent sv (message request) (user_address request)) as [i | e];
    simpl in Hrun; [| destruct e; discriminate Hrun].
  destruct (action i) eqn:Ha; unfold_handlers; run_in Hrun;
    try discriminate Hrun; injection Hrun as <- <-; simpl; rewrite Ha; simpl;
    (split; [reflexivity |]);
    repeat split; intros; try discriminate; try done;
    try match goal with H : is_Some None |- _ => destruct H; discriminate end;
    try match goal with H : _ ∧ _ |- _ => destruct H; try discriminate end;
    try match goal with H : is_Some None |- _ => destruct H; discriminate end;
    eauto.
Qed.

Lemma chat_response_shape_witness :
  let sv := Scenario.services
              (Scenario.intent_of STAKE_TOKEN (Scenario.amount_of "2" "SUI"))
              "high" 0 None "0xwallet" in
  let out := chat_endpoint sv (Scenario.chat "stake 2 SUI") [] in
  ∃ r, fst out = Ok r
    ∧ (is_Some (transaction_data r) → carries_transaction (action (intent r)) = true)
    ∧ (ready_to_execute r = true → is_Some (transaction_data r))
    ∧ (is_Some (dry_run r)
       ↔ is_monetary (action (intent r)) = true ∧ is_Some (transaction_data r)).
Proof.
  intros sv out.
  destruct out as [res calls] eqn:Hout.
  destruct res as [r | e]; [| vm_compute in Hout; discriminate Hout].
  exists r. split; [reflexivity |].
  exact (proj2 (chat_response_shape sv (Scenario.chat "stake 2 SUI") r calls Hout)).
Defined.

(** X3: whatever the services answer, [/chat] invokes the classifier first
    and only once, and never the wallet signer, a builder of executable
    transactions, the blob store or the bulk encryption of the vault. *)
Theorem chat_call_discipline (sv : Services) (request : ChatRequest) :
  ∃ rest,
    snd (chat_endpoint sv request [])
    = C_parse_intent (message request) (user_address request) :: rest
    ∧ forallb (λ c, negb (is_parse_intent c) && negb (is_wallet_call c)
                    && negb (is_execution_build c) && negb (is_vault_call c)) rest
      = true.
Proof.
  destruct (chat_endpoint sv request []) as [res calls] eqn:Hrun.
  unfold chat_endpoint, dispatch in Hrun. unfold_monad.
  destruct (parse_intent sv (message request) (user_address request)) as [i | e];
    simpl in Hrun; [| destruct e; injection Hrun as <- <-; eexists; split; reflexivity].
  destruct (action i); unfold_handlers; run_in Hrun;
    injection Hrun as <- <-; eexists; split; reflexivity.
Qed.

(** X4: in the balance, stake-info, stake and unstake branches a token that
    is not a member of [TokenType] makes the request fail with status 500
    (the enum's [ValueError] reaches the catch-all handler), before any
    gateway call: the intent parser is the only service that was asked. *)
Theorem chat_unknown_token_is_500 (sv : Services) (request : ChatRequest)
    (i : Intent) (msg : string) :
  parse_intent sv (message request) (user_address request) = Ok i →
  action i = GET_BALANCE ∨ action i = GET_STAKE_INFO
  ∨ action i = STAKE_TOKEN ∨ action i = UNSTAKE_TOKEN →
  opt_truthy (user_address request) = true →
  TokenType_of (dict_get_default (parsed_data i) "token" (PStr "SUI"))
    = Raise (ValueError msg) →
  ∃ detail,
    chat_endpoint sv request []
    = (Raise (HTTPException HTTP_500_INTERNAL_SERVER_ERROR detail),
       [C_parse_intent (message request) (user_address request)]).
Proof.
  intros Hparse Hact Haddr Htoken.
  unfold chat_endpoint, dispatch. unfold_monad. rewrite Hparse. simpl.
  unfold opt_truthy in Haddr.
  destruct (user_address request) as [ua |] eqn:Hua; [| discriminate Haddr].
  destruct Hact as [Ha | [Ha | [Ha | Ha]]]; rewrite Ha; unfold_handlers;
    unfold_monad; rewrite Hua, Haddr; simpl; rewrite Htoken; eexists; reflexivity.
Qed.

Lemma chat_unknown_token_is_500_witness :
  (∃ detail,
     chat_endpoint
       (Cases.classify (Scenario.intent_of STAKE_TOKEN (Scenario.amount_of "1" "BTC")) None)
       (Scenario.chat "stake 1 BTC") []
     = (Raise (HTTPException HTTP_500_INTERNAL_SERVER_ERROR detail),
        [C_parse_intent "stake 1 BTC" (Some "0xabc")]))
  ∧ (∃ detail,
       chat_endpoint
         (Cases.classify
            (Scenario.intent_of GET_BALANCE (<["token" := PNone]> ∅)) None)
         (Scenario.chat "balance?") []
       = (Raise (HTTPException HTTP_500_INTERNAL_SERVER_ERROR detail),
          [C_parse_intent "balance?" (Some "0xabc")])).
Proof.
  split.
  - apply (chat_unknown_token_is_500
             (Cases.classify
                (Scenario.intent_of STAKE_TOKEN (Scenario.amount_of "1" "BTC")) None)
             (Scenario.chat "stake 1 BTC")
             (Scenario.intent_of STAKE_TOKEN (Scenario.amount_of "1" "BTC"))
             "'BTC' is not a valid TokenType");
      first [reflexivity | right; right; left; reflexivity].
  - apply (chat_unknown_token_is_500
             (Cases.classify
                (Scenario.intent_of GET_BALANCE (<["token" := PNone]> ∅)) None)
             (Scenario.chat "balance?")
             (Scenario.intent_of GET_BALANCE (<["token" := PNone]> ∅))
             "None is not a valid TokenType");
      first [reflexivity | left; reflexivity].
Defined.

(** The conversion of the default amount. *)
Lemma amount_zero_9 : PyNum.amount_in_smallest (PStr "0") 9 = Ok "0".
Proof. vm_compute. reflexivity. Qed.

Lemma amount_zero_6 : PyNum.amount_in_smallest (PStr "0") 6 = Ok "0".
Proof. vm_compute. reflexivity. Qed.

(** X5: for a stake, unstake or transfer whose parsed data has no amount,
    the amount defaults to "0" and is not checked: whenever a response
    with a payload is returned, the payload carries the amount "0". *)
Theorem chat_missing_amount_is_zero (sv : Services) (request : ChatRequest)
    (i : Intent) (r : ChatResponse) (calls : list Call) :
  parse_intent sv (message request) (user_address request) = Ok i →
  is_monetary (action i) = true →
  parsed_data i !! "amount" = None →
  chat_endpoint sv request [] = (Ok r, calls) →
  is_Some (transaction_data r) →
  payload_field r "amount" = Some (PStr "0").
Proof.
  intros Hparse Hmon Hnone Hrun Hsome.
  unfold chat_endpoint, dispatch in Hrun. unfold_monad.
  rewrite Hparse in Hrun. simpl in Hrun.
  assert (dict_get_default (parsed_data i) "amount" (PStr "0") = PStr "0") as Hd.
  { unfold dict_get_default. rewrite Hnone. reflexivity. }
  pose proof amount_zero_9 as H9. pose proof amount_zero_6 as H6.
  destruct (action i); try discriminate Hmon; unfold_handlers;
    rewrite Hd in Hrun;
    set (convert := PyNum.amount_in_smallest (PStr "0")) in *; clearbody convert;
    run_in Hrun; try discriminate Hrun; injection Hrun as <- <-;
    try (destruct Hsome; discriminate);
    repeat match goal with
           | t : TokenType |- _ => destruct t
           end;
    simpl in *; unfold payload_field; simpl;
    repeat (rewrite lookup_insert_ne by (intros [=]));
    rewrite lookup_insert_eq; congruence.
Qed.

Lemma chat_missing_amount_is_zero_witness :
  ∃ r, fst (chat_endpoint
              (Cases.classify (Scenario.intent_of STAKE_TOKEN ∅) None)
              (Scenario.chat "stake") []) = Ok r
       ∧ ready_to_execute r = true
       ∧ payload_field r "amount" = Some (PStr "0").
Proof.
  eexists. split; [reflexivity |]. split; [reflexivity |].
  eapply (chat_missing_amount_is_zero
            (Cases.classify (Scenario.intent_of STAKE_TOKEN ∅) None)
            (Scenario.chat "stake") (Scenario.intent_of STAKE_TOKEN ∅));
    try reflexivity.
  simpl. eauto.
Defined.

(** ** [/chat]: contact names and the on-chain address book *)

(** X6: a transfer whose recipient is marked as a contact name never
    becomes a transaction: once the address-book lookup answers (book or
    no book), the response is not ready and has neither dry run nor
    payload, and the lookup is the only gateway call: no balance query, no
    gas estimate. *)
Theorem transfer_to_contact_name_is_unresolved (sv : Services)
    (request : ChatRequest) (i : Intent) (ua : string) (book : option AddressBook) :
  parse_intent sv (message request) (user_address request) = Ok i →
  action i = TRANSFER_TOKEN →
  user_address request = Some ua →
  str_truthy ua = true →
  truthy (dict_get_default (parsed_data i) "is_contact_name" (PBool false)) = true →
  get_user_address_book sv ua = Ok book →
  ∃ r, chat_endpoint sv request []
       = (Ok r, [C_parse_intent (message request) (user_address request);
                 C_get_user_address_book ua])
       ∧ ready_to_execute r = false ∧ dry_run r = None ∧ transaction_data r = None.
Proof.
  intros Hparse Ha Hua Htruthy Hname Hbook.
  unfold chat_endpoint, dispatch. unfold_monad. rewrite Hparse. simpl. rewrite Ha.
  unfold handle_transfer_token. unfold_monad.
  rewrite Hua. simpl. rewrite Htruthy, Hname. simpl. rewrite Hbook. simpl.
  destruct book; eexists; repeat split.
Qed.

Lemma transfer_to_contact_name_is_unresolved_witness :
  let i := Scenario.intent_of TRANSFER_TOKEN
             (<["recipient" := PStr "Mom"]>
              (<["is_contact_name" := PBool true]> (Scenario.amount_of "100" "SUI"))) in
  ∃ r, chat_endpoint
         (Cases.classify i (Some {| object_id := "0x5b1e0c3a9f2d4471aa" |}))
         (Scenario.chat "Send 100 SUI to Mom") []
       = (Ok r, [C_parse_intent "Send 100 SUI to Mom" (Some "0xabc");
                 C_get_user_address_book "0xabc"])
       ∧ ready_to_execute r = false ∧ dry_run r = None ∧ transaction_data r = None.
Proof.
  intros i.
  apply (transfer_to_contact_name_is_unresolved
           (Cases.classify i (Some {| object_id := "0x5b1e0c3a9f2d4471aa" |}))
           (Scenario.chat "Send 100 SUI to Mom") i "0xabc"
           (Some {| object_id := "0x5b1e0c3a9f2d4471aa" |})); reflexivity.
Defined.

(** X7: saving a contact through [/chat] checks its fields before looking
    anything up: with an empty key or address the response is not ready
    and the address book is not even queried; with both present but no
    address book, the response is not ready and nothing is encrypted or
    built. *)
Theorem chat_save_contact_refusals (sv : Services) (request : ChatRequest)
    (i : Intent) (ua key : string) :
  parse_intent sv (message request) (user_address request) = Ok i →
  action i = SAVE_CONTACT →
  user_address request = Some ua →
  str_truthy ua = true →
  normalise_key (dict_get_default (parsed_data i) "contact_key" (PStr "")) = Ok key →
  let contact_address := dict_get_default (parsed_data i) "contact_address" (PStr "") in
  (str_truthy key = false ∨ truthy contact_address = false →
   ∃ r, chat_endpoint sv request []
        = (Ok r, [C_parse_intent (message request) (user_address request)])
        ∧ ready_to_execute r = false ∧ transaction_data r = None)
  ∧ (str_truthy key = true → truthy contact_address = true →
     get_user_address_book sv ua = Ok None →
     ∃ r, chat_endpoint sv request []
          = (Ok r, [C_parse_intent (message request) (user_address request);
                    C_get_user_address_book ua])
          ∧ ready_to_execute r = false ∧ transaction_data r = None).
Proof.
  intros Hparse Ha Hua Htruthy Hkey contact_address. subst contact_address.
  unfold chat_endpoint, dispatch. unfold_monad. rewrite Hparse. simpl. rewrite Ha.
  unfold handle_save_contact. unfold_monad.
  rewrite Hua. simpl. rewrite Htruthy, Hkey. simpl.
  split.
  - intros [H | H]; rewrite H, ?orb_true_r; simpl; eexists; repeat split.
  - intros -> -> ->. simpl. eexists. repeat split.
Qed.

Lemma chat_save_contact_refusals_witness :
  (∃ r, chat_endpoint
          (Cases.classify
             (Scenario.intent_of SAVE_CONTACT (<["contact_key" := PStr "alice"]> ∅)) None)
          (Scenario.chat "Save alice") []
        = (Ok r, [C_parse_intent "Save alice" (Some "0xabc")])
        ∧ ready_to_execute r = false ∧ transaction_data r = None)
  ∧ (∃ r, chat_endpoint
            (Cases.classify
               (Scenario.intent_of SAVE_CONTACT
                  (<["contact_key" := PStr "alice"]>
                   (<["contact_address" := PStr "0x123"]> ∅))) None)
            (Scenario.chat "Save 0x123 as alice") []
          = (Ok r, [C_parse_intent "Save 0x123 as alice" (Some "0xabc");
                    C_get_user_address_book "0xabc"])
          ∧ ready_to_execute r = false ∧ transaction_data r = None).
Proof.
  split.
  - refine (proj1 (chat_save_contact_refusals _ (Scenario.chat "Save alice")
                     _ "0xabc" "alice" _ _ _ _ _) _);
      first [reflexivity | right; reflexivity].
  - refine (proj2 (chat_save_contact_refusals _ (Scenario.chat "Save 0x123 as alice")
                     _ "0xabc" "alice" _ _ _ _ _) _ _ _); reflexivity.
Defined.

(** A normalised key has no space and no upper-case ASCII letter. *)
Lemma normalised_chars (s : string) :
  Forall (λ c, c ≠ " "%char ∧ is_upper c = false)
         (chars (PyStr.spaces_to_underscores (PyStr.lower s))).
Proof.
  induction s as [| c s IH]; [constructor |].
  simpl. constructor; [| exact IH].
  destruct c as [[] [] [] [] [] [] [] []]; vm_compute; split; congruence.
Qed.

(** X8: when a contact is saved through [/chat] with a key [raw] of ASCII
    characters (address present, address book found, the encryption of the
    contact's name, address and notes and the build of the transaction
    answering), the key the handler uses is [raw] lowered with its spaces
    replaced by underscores: the build call is given the id of the user's
    address book and that key, the response is ready, and its payload
    carries that key, the contact's name and the builder's transaction
    type and target.  No space and no upper-case letter is left in the
    key. *)
Theorem chat_save_contact_payload (sv : Services) (request : ChatRequest)
    (i : Intent) (ua raw : string) (book : AddressBook) (data : pyval)
    (txr : gmap string pyval) :
  let pd := parsed_data i in
  let key := PyStr.spaces_to_underscores (PyStr.lower raw) in
  let contact_name := dict_get_default pd "contact_name" (PStr "") in
  let contact_address := dict_get_default pd "contact_address" (PStr "") in
  let notes := dict_get_default pd "notes" (PStr "") in
  parse_intent sv (message request) (user_address request) = Ok i →
  action i = SAVE_CONTACT →
  user_address request = Some ua →
  str_truthy ua = true →
  dict_get_default pd "contact_key" (PStr "") = PStr raw →
  Forall (λ c, (N_of_ascii c < 128)%N) (chars raw) →
  str_truthy raw = true →
  truthy contact_address = true →
  get_user_address_book sv ua = Ok (Some book) →
  encrypt_contact sv ua contact_name contact_address notes = Ok data →
  build_add_contact_tx sv ua (object_id book) key data
    (os_urandom sv 16) (time_time sv) = Ok txr →
  ∃ r,
    chat_endpoint sv request []
    = (Ok r, [C_parse_intent (message request) (user_address request);
              C_get_user_address_book ua; C_encrypt_contact ua;
              C_build_add_contact_tx ua (object_id book) key])
    ∧ ready_to_execute r = true
    ∧ payload_field r "action" = Some (PStr "save_contact")
    ∧ payload_field r "contact_key" = Some (PStr key)
    ∧ payload_field r "contact_name" = Some contact_name
    ∧ payload_field r "transaction_type" = Some (dict_get txr "transaction_type")
    ∧ payload_field r "target" = Some (dict_get txr "target")
    ∧ Forall (λ c, c ≠ " "%char ∧ is_upper c = false) (chars key).
Proof.
  intros pd key contact_name contact_address notes
    Hparse Ha Hua Htruthy Hraw _ Hrawt Haddr Hbook Henc Hbuild.
  pose proof (normalised_chars raw) as Hchars.
  assert (str_truthy key = true) as Hkt.
  { subst key. destruct raw; [discriminate Hrawt | reflexivity]. }
  subst pd key contact_name contact_address notes.
  unfold chat_endpoint, dispatch. unfold_monad. rewrite Hparse. simpl. rewrite Ha.
  unfold handle_save_contact. unfold_monad.
  rewrite Hua. simpl. rewrite Htruthy, Hraw. simpl.
  rewrite Hkt, Haddr. simpl. rewrite Hbook. simpl.
  rewrite Henc. simpl. rewrite Hbuild. simpl.
  eexists. split; [reflexivity |].
  unfold payload_field. simpl.
  repeat split; assumption.
Qed.

Lemma chat_save_contact_payload_witness :
  let i := Scenario.intent_of SAVE_CONTACT
             (<["contact_key" := PStr "Aunt May"]>
              (<["contact_name" := PStr "May Parker"]>
               (<["contact_address" := PStr "0x123"]> ∅))) in
  let book := {| object_id := "0x5b1e0c3a9f2d4471aa" |} in
  ∃ r,
    chat_endpoint (Cases.classify i (Some book))
      (Scenario.chat "Save May Parker 0x123 as Aunt May") []
    = (Ok r, [C_parse_intent "Save May Parker 0x123 as Aunt May" (Some "0xabc");
              C_get_user_address_book "0xabc"; C_encrypt_contact "0xabc";
              C_build_add_contact_tx "0xabc" "0x5b1e0c3a9f2d4471aa" "aunt_may"])
    ∧ ready_to_execute r = true
    ∧ payload_field r "action" = Some (PStr "save_contact")
    ∧ payload_field r "contact_key" = Some (PStr "aunt_may")
    ∧ payload_field r "contact_name" = Some (PStr "May Parker")
    ∧ payload_field r "transaction_type" = Some (PStr "move_call")
    ∧ payload_field r "target" = Some (PStr "address_book::add_contact").
Proof.
  intros i book.
  destruct (chat_save_contact_payload (Cases.classify i (Some book))
              (Scenario.chat "Save May Parker 0x123 as Aunt May") i "0xabc" "Aunt May"
              book (PStr "sealed")
              (<["transaction_type" := PStr "move_call"]>
               (<["target" := PStr "address_book::add_contact"]> ∅)))
    as (r & Hrun & Hready & Haction & Hkey & Hname & Htype & Htarget & _);
    [reflexivity | reflexivity | reflexivity | reflexivity | reflexivity
    | repeat constructor | reflexivity | reflexivity | reflexivity
    | reflexivity | reflexivity |].
  exists r. split; [exact Hrun |].
  split; [exact Hready |]. split; [exact Haction |].
  split; [exact Hkey |]. split; [exact Hname |].
  split; [exact Htype | exact Htarget].
Defined.

Example normalised_aunt_may :
  normalise_key (PStr "Aunt May") = Ok "aunt_may".
Proof. reflexivity. Qed.

(** ** The staked-amount check of unstaking, as coded *)

(** X21: the staked-amount check as the code makes it, on the number its
    own conversion yields (exponent 9, whatever the token): for a message classified as
    UNSTAKE_TOKEN from a user with an address, once the stake and balance
    queries have answered, a converted amount above the staked amount
    gives a response that is not ready and has neither dry run nor
    payload, whatever the balance; otherwise, once the gas estimate and
    the dry-run summary have answered, the response carries the summary
    and is ready, whatever the summary says. *)
Theorem unstake_gate_on_converted_amount (sv : Services) (request : ChatRequest)
    (i : Intent) (ua : string) (token_type : TokenType) (si : StakeInfo)
    (bi : BalanceInfo) (requested staked : Z) :
  parse_intent sv (message request) (user_address request) = Ok i →
  action i = UNSTAKE_TOKEN →
  user_address request = Some ua →
  str_truthy ua = true →
  TokenType_of (dict_get_default (parsed_data i) "token" (PStr "SUI")) = Ok token_type →
  get_user_stake sv ua token_type = Ok si →
  get_balance sv ua token_type = Ok bi →
  PyNum.smallest_units (dict_get_default (parsed_data i) "amount" (PStr "0")) 9
    = Ok requested →
  py_int (staked_amount si) = Ok staked →
  (requested > staked →
   ∃ r, fst (chat_endpoint sv request []) = Ok r
        ∧ ready_to_execute r = false ∧ dry_run r = None
        ∧ transaction_data r = None)
  ∧ (requested ≤ staked →
     ∀ gas d,
       estimate_gas_fee sv [] = Ok gas →
       generate_dry_run_summary sv "unstake_token"
         (<["recipient" := PStr ua]>
          (<["amount" := PStr (pretty requested)]>
          (<["token" := PStr (token_value token_type)]> ∅)))
         (balance bi) gas = Ok d →
       ∃ r, fst (chat_endpoint sv request []) = Ok r
            ∧ ready_to_execute r = true ∧ dry_run r = Some d
            ∧ is_Some (transaction_data r)).
Proof.
  intros Hparse Ha Hua Htruthy Htoken Hstake Hbal Hreq Hstaked.
  unfold chat_endpoint, dispatch. unfold_monad.
  rewrite Hparse. simpl. rewrite Ha.
  unfold handle_unstake_token. unfold_monad.
  rewrite Hua, Htruthy. simpl. rewrite Htoken. simpl.
  rewrite Hstake. simpl. rewrite Hbal. simpl.
  unfold PyNum.amount_in_smallest. rewrite Hreq.
  rewrite int_of_str_pretty, Hstaked.
  split; intros Hcmp.
  - assert ((requested >? staked) = true) as -> by lia.
    simpl. eexists. repeat split.
  - assert ((requested >? staked) = false) as -> by lia.
    intros gas d Hgas Hsum. rewrite Hgas. simpl. rewrite Hsum. simpl.
    eexists. repeat split. simpl. eauto.
Qed.

(** With 3 SUI staked: 4 SUI is refused; 2 SUI is ready although the dry
    run is rated "high". *)
Lemma unstake_gate_on_converted_amount_witness :
  (∃ r, fst (Scenario.chat_as UNSTAKE_TOKEN (Scenario.amount_of "4" "SUI") "low"
               3000000000) = Ok r
        ∧ ready_to_execute r = false ∧ dry_run r = None
        ∧ transaction_data r = None)
  ∧ (∃ r, fst (Scenario.chat_as UNSTAKE_TOKEN (Scenario.amount_of "2" "SUI") "high"
                 3000000000) = Ok r
          ∧ ready_to_execute r = true
          ∧ dry_run r = Some {| action_description := PStr "unstake_token";
                                risk_level := "high";
                                estimated_gas_fee := PInt 1000000 |}
          ∧ is_Some (transaction_data r)).
Proof.
  split.
  - refine (proj1 (unstake_gate_on_converted_amount _ (Scenario.chat "...")
                     (Scenario.intent_of UNSTAKE_TOKEN (Scenario.amount_of "4" "SUI"))
                     "0xabc" SUI _ _ 4000000000 3000000000 _ _ _ _ _ _ _ _ _) _);
      first [reflexivity | vm_compute; reflexivity].
  - refine (proj2 (unstake_gate_on_converted_amount _ (Scenario.chat "...")
                     (Scenario.intent_of UNSTAKE_TOKEN (Scenario.amount_of "2" "SUI"))
                     "0xabc" SUI _ _ 2000000000 3000000000 _ _ _ _ _ _ _ _ _)
                  _ _ _ _ _);
      first [reflexivity | vm_compute; discriminate | vm_compute; reflexivity].
Defined.

(** ** [/execute]: the server-signed path and the failures of both paths *)

(** X9: when a private key is supplied and the wallet cannot be made from
    it ([ValueError]), a stake, unstake or transfer with its required
    fields is rejected with status 400 carrying the wallet's message; the
    wallet constructor is the only thing that was invoked: nothing is
    built, signed or submitted. *)
Theorem malformed_key_is_400 (sv : Services) (request : ExecuteTransactionRequest)
    (msg : string) :
  let tx_data := exec_transaction_data request in
  let private_key := dict_get tx_data "private_key" in
  is_supported_action (dict_get tx_data "action") = true →
  truthy (dict_get tx_data "amount") = true →
  (py_eq_str (dict_get tx_data "action") "transfer_token" = true →
   truthy (dict_get tx_data "recipient") = true) →
  truthy private_key = true →
  WalletService sv private_key = Raise (ValueError msg) →
  execute_transaction sv request []
  = (Raise (HTTPException HTTP_400_BAD_REQUEST [Lit ("Wallet error: " +:+ msg)]),
     [C_WalletService private_key]).
Proof.
  intros tx_data private_key Hact Hamount Hrecipient Hkey Hwallet.
  subst tx_data private_key. unfold is_supported_action in Hact. unfold_execute.
  destruct (py_eq_str _ "stake_token"); simpl;
    [rewrite Hamount, Hkey; simpl; rewrite Hwallet; reflexivity |].
  destruct (py_eq_str _ "unstake_token"); simpl;
    [rewrite Hamount, Hkey; simpl; rewrite Hwallet; reflexivity |].
  destruct (py_eq_str _ "transfer_token"); [| discriminate Hact].
  simpl. rewrite Hrecipient by reflexivity.
  rewrite Hamount, Hkey. simpl. rewrite Hwallet. reflexivity.
Qed.

Lemma malformed_key_is_400_witness :
  execute_transaction
    (Cases.with_bad_wallet (Cases.classify (Scenario.intent_of UNKNOWN ∅) None)
       "Invalid private key format")
    (Scenario.execute_of
       (<["action" := PStr "unstake_token"]>
        (<["private_key" := PStr "not-a-key"]> (Scenario.amount_of "1000000000" "SUI"))))
    []
  = (Raise (HTTPException HTTP_400_BAD_REQUEST
              [Lit "Wallet error: Invalid private key format"]),
     [C_WalletService (PStr "not-a-key")]).
Proof.
  etrans.
  - apply (malformed_key_is_400
             (Cases.with_bad_wallet (Cases.classify (Scenario.intent_of UNKNOWN ∅) None)
                "Invalid private key format")
             (Scenario.execute_of
                (<["action" := PStr "unstake_token"]>
                 (<["private_key" := PStr "not-a-key"]>
                    (Scenario.amount_of "1000000000" "SUI"))))
             "Invalid private key format");
      first [reflexivity | discriminate].
  - vm_compute. reflexivity.
Defined.

(** X10: on the server-signed path of a stake (and likewise of an unstake),
    with the wallet, the token and the builder answering, the wallet is
    asked to execute exactly the bytes that were built, after one build
    call for the wallet's address; a successful result is returned as it
    is, a failed one becomes a rejection with status 500. *)
Theorem server_signed_staking_outcome (sv : Services)
    (request : ExecuteTransactionRequest) (token_type : TokenType)
    (sender : string) (built : BuiltTransaction) (result : TransactionResult) :
  let tx_data := exec_transaction_data request in
  let private_key := dict_get tx_data "private_key" in
  let amount := dict_get tx_data "amount" in
  truthy amount = true →
  truthy private_key = true →
  WalletService sv private_key = Ok () →
  wallet_get_address sv private_key = Ok sender →
  TokenType_of (dict_get_default tx_data "token" (PStr "SUI")) = Ok token_type →
  wallet_execute_transaction sv private_key (transaction_bytes built) = Ok result →
  (py_eq_str (dict_get tx_data "action") "stake_token" = true →
   build_stake_transaction sv sender amount token_type = Ok built →
   snd (execute_transaction sv request [])
   = [C_WalletService private_key; C_wallet_get_address private_key;
      C_build_stake_transaction sender amount token_type;
      C_wallet_execute_transaction private_key (transaction_bytes built)]
   ∧ (success result = true → fst (execute_transaction sv request []) = Ok result)
   ∧ (success result = false →
      status_of (fst (execute_transaction sv request []))
      = Some HTTP_500_INTERNAL_SERVER_ERROR))
  ∧ (py_eq_str (dict_get tx_data "action") "unstake_token" = true →
     build_unstake_transaction sv sender amount token_type = Ok built →
     snd (execute_transaction sv request [])
     = [C_WalletService private_key; C_wallet_get_address private_key;
        C_build_unstake_transaction sender amount token_type;
        C_wallet_execute_transaction private_key (transaction_bytes built)]
     ∧ (success result = true → fst (execute_transaction sv request []) = Ok result)
     ∧ (success result = false →
        status_of (fst (execute_transaction sv request []))
        = Some HTTP_500_INTERNAL_SERVER_ERROR)).
Proof.
  intros tx_data private_key amount Hamount Hkey Hwallet Haddr Htoken Hexec.
  subst tx_data private_key amount. unfold_execute.
  split; intros Ha Hbuild; rewrite (py_eq_str_true _ _ Ha); simpl;
    rewrite Hamount, Hkey; simpl; rewrite Hwallet; simpl; rewrite Haddr; simpl;
    rewrite Htoken; simpl; rewrite Hbuild; simpl; rewrite Hexec; simpl;
    destruct (success result); simpl; repeat split; intros; congruence.
Qed.

Lemma server_signed_staking_outcome_witness :
  let ok := Cases.classify (Scenario.intent_of UNKNOWN ∅) None in
  let failing := Cases.with_failing_submission ok "InsufficientGas" in
  let request :=
    Scenario.execute_of
      (<["action" := PStr "stake_token"]>
       (<["private_key" := PStr "suiprivkey1q"]>
          (Scenario.amount_of "2000000000" "SUI"))) in
  fst (execute_transaction ok request []) = Ok Scenario.signed
  ∧ status_of (fst (execute_transaction failing request []))
    = Some HTTP_500_INTERNAL_SERVER_ERROR.
Proof.
  intros ok failing request. split.
  - refine (proj1 (proj2 (proj1 (server_signed_staking_outcome ok request SUI
                                   "0xwallet" Scenario.built Scenario.signed
                                   _ _ _ _ _ _) _ _)) _); reflexivity.
  - refine (proj2 (proj2 (proj1 (server_signed_staking_outcome failing request SUI
                                   "0xwallet" Scenario.built
                                   {| success := false; transaction_digest := None;
                                      effects := None;
                                      error := Some "InsufficientGas" |}
                                   _ _ _ _ _ _) _ _)) _); reflexivity.
Defined.

(** X11: a server-signed transfer never reaches the gateway and never uses
    [request.user_address]: with the wallet made and the token valid, the
    calls are the wallet constructor and the wallet's own build-and-execute
    with the payload's recipient and amount; its result is returned when
    successful and becomes a 500 otherwise. *)
Theorem server_signed_transfer_outcome (sv : Services)
    (request : ExecuteTransactionRequest) (token_type : TokenType)
    (result : TransactionResult) :
  let tx_data := exec_transaction_data request in
  let private_key := dict_get tx_data "private_key" in
  let recipient := dict_get tx_data "recipient" in
  let amount := dict_get tx_data "amount" in
  py_eq_str (dict_get tx_data "action") "transfer_token" = true →
  truthy recipient = true →
  truthy amount = true →
  truthy private_key = true →
  WalletService sv private_key = Ok () →
  TokenType_of (dict_get_default tx_data "token" (PStr "SUI")) = Ok token_type →
  wallet_build_and_execute_transfer sv private_key recipient amount token_type
    = Ok result →
  snd (execute_transaction sv request [])
  = [C_WalletService private_key;
     C_wallet_build_and_execute_transfer private_key recipient amount token_type]
  ∧ (success result = true → fst (execute_transaction sv request []) = Ok result)
  ∧ (success result = false →
     status_of (fst (execute_transaction sv request []))
     = Some HTTP_500_INTERNAL_SERVER_ERROR).
Proof.
  intros tx_data private_key recipient amount Ha Hrecipient Hamount Hkey Hwallet
    Htoken Hexec.
  subst tx_data private_key recipient amount. unfold_execute.
  rewrite (py_eq_str_true _ _ Ha). simpl.
  rewrite Hrecipient, Hamount, Hkey. simpl. rewrite Hwallet. simpl.
  rewrite Htoken. simpl. rewrite Hexec. simpl.
  destruct (success result); simpl; repeat split; intros; congruence.
Qed.

Lemma server_signed_transfer_outcome_witness :
  let sv := Cases.classify (Scenario.intent_of UNKNOWN ∅) None in
  let request :=
    Scenario.execute_of
      (<["action" := PStr "transfer_token"]>
       (<["recipient" := PStr "0xdef"]>
        (<["private_key" := PStr "suiprivkey1q"]>
           (Scenario.amount_of "100000000000" "SUI")))) in
  snd (execute_transaction sv request [])
  = [C_WalletService (PStr "suiprivkey1q");
     C_wallet_build_and_execute_transfer (PStr "suiprivkey1q") (PStr "0xdef")
       (PStr "100000000000") SUI]
  ∧ fst (execute_transaction sv request []) = Ok Scenario.signed.
Proof.
  intros sv request.
  pose proof (server_signed_transfer_outcome sv request SUI Scenario.signed
                eq_refl eq_refl eq_refl eq_refl eq_refl eq_refl eq_refl)
    as (Hcalls & Hok & _).
  split; [exact Hcalls | exact (Hok eq_refl)].
Defined.

(** X12: on the client-signing path a token that is not a member of
    [TokenType] is a client error: the request is rejected with status 400
    and the builder is never called (the same token makes [/chat] answer
    500). *)
Theorem execute_unknown_token_is_400 (sv : Services)
    (request : ExecuteTransactionRequest) (msg : string) :
  let tx_data := exec_transaction_data request in
  is_supported_action (dict_get tx_data "action") = true →
  truthy (dict_get tx_data "amount") = true →
  (py_eq_str (dict_get tx_data "action") "transfer_token" = true →
   truthy (dict_get tx_data "recipient") = true) →
  truthy (dict_get tx_data "private_key") = false →
  TokenType_of (dict_get_default tx_data "token" (PStr "SUI")) = Raise (ValueError msg) →
  ∃ detail,
    execute_transaction sv request [] = (Raise (HTTPException HTTP_400_BAD_REQUEST detail), []).
Proof.
  intros tx_data Hact Hamount Hrecipient Hkey Htoken.
  subst tx_data. unfold is_supported_action in Hact. unfold_execute.
  destruct (py_eq_str _ "stake_token"); simpl;
    [rewrite Hamount, Hkey; simpl; rewrite Htoken; simpl; eauto |].
  destruct (py_eq_str _ "unstake_token"); simpl;
    [rewrite Hamount, Hkey; simpl; rewrite Htoken; simpl; eauto |].
  destruct (py_eq_str _ "transfer_token"); [| discriminate Hact].
  simpl. rewrite Hrecipient by reflexivity.
  rewrite Hamount, Hkey. simpl. rewrite Htoken. simpl. eauto.
Qed.

Lemma execute_unknown_token_is_400_witness :
  ∃ detail,
    execute_transaction (Cases.classify (Scenario.intent_of UNKNOWN ∅) None)
      (Scenario.execute_of
         (<["action" := PStr "stake_token"]> (Scenario.amount_of "1000000" "BTC")))
      []
    = (Raise (HTTPException HTTP_400_BAD_REQUEST detail), []).
Proof.
  apply (execute_unknown_token_is_400
           (Cases.classify (Scenario.intent_of UNKNOWN ∅) None)
           (Scenario.execute_of
              (<["action" := PStr "stake_token"]> (Scenario.amount_of "1000000" "BTC")))
           "'BTC' is not a valid TokenType");
    first [reflexivity | discriminate].
Defined.

(** X13: whatever the request and whatever the services answer,
    [/execute] invokes only transaction builders and the wallet, builds at
    most one transaction and submits at most one. *)
Theorem execute_call_discipline (sv : Services) (request : ExecuteTransactionRequest) :
  let calls := snd (execute_transaction sv request []) in
  forallb (λ c, is_execution_build c || is_wallet_call c) calls = true
  ∧ (length (List.filter is_gateway_call calls) ≤ 1)%nat
  ∧ (length (List.filter is_signing_call calls) ≤ 1)%nat.
Proof.
  intros calls. subst calls.
  destruct (execute_transaction sv request []) as [res calls] eqn:Hrun.
  unfold execute_transaction, execute_stake, execute_unstake, execute_transfer,
    value_error_400, return_or_500 in Hrun.
  run_in Hrun; injection Hrun as <- <-; simpl; repeat split; lia.
Qed.

(** X14: on the client-signing path, a failure of the builder is a client
    error when it is a [ValueError] and a server error otherwise: status
    400 in the first case, 500 in the second; the build call is the only
    call either way. *)
Theorem client_build_failure_status (sv : Services)
    (request : ExecuteTransactionRequest) (token_type : TokenType) (msg : string) :
  let tx_data := exec_transaction_data request in
  let amount := dict_get tx_data "amount" in
  let out := execute_transaction sv request [] in
  py_eq_str (dict_get tx_data "action") "stake_token" = true →
  truthy amount = true →
  truthy (dict_get tx_data "private_key") = false →
  TokenType_of (dict_get_default tx_data "token" (PStr "SUI")) = Ok token_type →
  (build_stake_transaction sv (exec_user_address request) amount token_type
   = Raise (ValueError msg) →
   out = (Raise (HTTPException HTTP_400_BAD_REQUEST
                   [Lit ("Failed to build stake transaction: " +:+ msg)]),
          [C_build_stake_transaction (exec_user_address request) amount token_type]))
  ∧ (build_stake_transaction sv (exec_user_address request) amount token_type
     = Raise (OtherError msg) →
     out = (Raise (HTTPException HTTP_500_INTERNAL_SERVER_ERROR
                     [Lit "Internal server error: "; Lit msg]),
            [C_build_stake_transaction (exec_user_address request) amount token_type])).
Proof.
  intros tx_data amount out Ha Hamount Hkey Htoken.
  subst tx_data amount out. unfold_execute.
  rewrite (py_eq_str_true _ _ Ha). simpl. rewrite Hamount, Hkey. simpl.
  rewrite Htoken. simpl.
  split; intros ->; reflexivity.
Qed.

Lemma client_build_failure_status_witness :
  let request :=
    Scenario.execute_of
      (<["action" := PStr "stake_token"]> (Scenario.amount_of "2000000000" "SUI")) in
  let base := Cases.classify (Scenario.intent_of UNKNOWN ∅) None in
  status_of (fst (execute_transaction
                    (Cases.with_builder_error base (ValueError "Insufficient balance"))
                    request []))
  = Some HTTP_400_BAD_REQUEST
  ∧ status_of (fst (execute_transaction
                      (Cases.with_builder_error base (OtherError "RPC unreachable"))
                      request []))
    = Some HTTP_500_INTERNAL_SERVER_ERROR.
Proof.
  intros request base. split.
  - rewrite (proj1 (client_build_failure_status
                      (Cases.with_builder_error base (ValueError "Insufficient balance"))
                      request SUI "Insufficient balance"
                      eq_refl eq_refl eq_refl eq_refl) eq_refl).
    reflexivity.
  - rewrite (proj2 (client_build_failure_status
                      (Cases.with_builder_error base (OtherError "RPC unreachable"))
                      request SUI "RPC unreachable"
                      eq_refl eq_refl eq_refl eq_refl) eq_refl).
    reflexivity.
Defined.

(** ** From [/chat] to [/execute] *)

(** A response carries the intent the classifier returned. *)
Lemma chat_echoes_intent (sv : Services) (request : ChatRequest)
    (r : ChatResponse) (calls : list Call) :
  chat_endpoint sv request [] = (Ok r, calls) →
  parse_intent sv (message request) (user_address request) = Ok (intent r).
Proof.
  intros Hrun. unfold chat_endpoint, dispatch in Hrun. unfold_monad.
  destruct (parse_intent sv (message request) (user_address request)) as [i | e];
    simpl in Hrun; [| destruct e; discriminate Hrun].
  destruct (action i); unfold_handlers; run_in Hrun;
    try discriminate Hrun; injection Hrun as <- _; reflexivity.
Qed.

Lemma pretty_Z_truthy (n : Z) : str_truthy (pretty n) = true.
Proof.
  pose proof (int_of_str_pretty n) as H.
  destruct (pretty n); [discriminate H | reflexivity].
Qed.

(** Reading a dict that was written entry by entry. *)
Lemma dict_get_insert_eq (d : gmap string pyval) (k : string) (v : pyval) :
  dict_get (<[k := v]> d) k = v.
Proof. unfold dict_get. rewrite lookup_insert_eq. reflexivity. Qed.

Lemma dict_get_insert_ne (d : gmap string pyval) (k k' : string) (v : pyval) :
  k ≠ k' → dict_get (<[k := v]> d) k' = dict_get d k'.
Proof. intros H. unfold dict_get. rewrite lookup_insert_ne by exact H. reflexivity. Qed.

Lemma dict_get_empty (k : string) : dict_get ∅ k = PNone.
Proof. unfold dict_get. rewrite lookup_empty. reflexivity. Qed.

Lemma dict_get_default_insert_eq (d : gmap string pyval) (k : string) (v dflt : pyval) :
  dict_get_default (<[k := v]> d) k dflt = v.
Proof. unfold dict_get_default. rewrite lookup_insert_eq. reflexivity. Qed.

Lemma dict_get_default_insert_ne (d : gmap string pyval) (k k' : string)
    (v dflt : pyval) :
  k ≠ k' → dict_get_default (<[k := v]> d) k' dflt = dict_get_default d k' dflt.
Proof.
  intros H. unfold dict_get_default. rewrite lookup_insert_ne by exact H. reflexivity.
Qed.

Ltac map_lookups :=
  repeat first [ rewrite dict_get_insert_eq
               | rewrite dict_get_insert_ne by (intros [=])
               | rewrite dict_get_empty
               | rewrite dict_get_default_insert_eq
               | rewrite dict_get_default_insert_ne by (intros [=]) ];
  simpl.

(** What [/execute] reads in the payloads that [/chat] writes. *)
Lemma staking_payload_fields (action amount token : string) :
  let tx : gmap string pyval :=
    <["action" := PStr action]>
    (<["amount" := PStr amount]> (<["token" := PStr token]> ∅)) in
  dict_get tx "action" = PStr action
  ∧ dict_get tx "amount" = PStr amount
  ∧ dict_get_default tx "token" (PStr "SUI") = PStr token
  ∧ dict_get tx "private_key" = PNone.
Proof. intros tx. subst tx. repeat split; map_lookups; reflexivity. Qed.

Lemma transfer_payload_fields (recipient : pyval) (amount token : string) :
  let tx : gmap string pyval :=
    <["action" := PStr "transfer_token"]>
    (<["recipient" := recipient]>
    (<["amount" := PStr amount]> (<["token" := PStr token]> ∅))) in
  dict_get tx "action" = PStr "transfer_token"
  ∧ dict_get tx "recipient" = recipient
  ∧ dict_get tx "amount" = PStr amount
  ∧ dict_get_default tx "token" (PStr "SUI") = PStr token
  ∧ dict_get tx "private_key" = PNone.
Proof. intros tx. subst tx. repeat split; map_lookups; reflexivity. Qed.

(** X15: the payload that [/chat] attaches to a stake or an unstake passes
    the validation of [/execute]: sent back without a private key, under
    any user address, it is not rejected for a missing field, an
    unsupported action or an unknown token, and reaches the matching
    builder with that address as sender and an amount that reads back as
    an integer. *)
Theorem staking_payload_reaches_builder (sv sv' : Services) (request : ChatRequest)
    (r : ChatResponse) (calls : list Call) (tx : gmap string pyval) (ua : string) :
  chat_endpoint sv request [] = (Ok r, calls) →
  action (intent r) = STAKE_TOKEN ∨ action (intent r) = UNSTAKE_TOKEN →
  transaction_data r = Some tx →
  ∃ amount token_type n,
    PyNum.int_of_str amount = Ok n
    ∧ snd (execute_transaction sv'
             {| exec_user_address := ua; exec_transaction_data := tx |} [])
      = [match action (intent r) with
         | STAKE_TOKEN => C_build_stake_transaction ua (PStr amount) token_type
         | _ => C_build_unstake_transaction ua (PStr amount) token_type
         end].
Proof.
  intros Hrun Hact Htx.
  pose proof (chat_echoes_intent _ _ _ _ Hrun) as Hparse.
  unfold chat_endpoint, dispatch in Hrun. unfold_monad.
  rewrite Hparse in Hrun. simpl in Hrun.
  destruct Hact as [Ha | Ha]; rewrite Ha in *; unfold_handlers; run_in Hrun;
    try discriminate Hrun; injection Hrun as Hr _;
    rewrite <- Hr in Htx; simpl in Htx;
    try discriminate Htx; injection Htx as <-;
    match goal with
    | H : PyNum.amount_in_smallest _ _ = Ok ?s |- _ =>
        destruct (amount_in_smallest_units _ _ _ H) as (n & _ & Hs & Hn);
        pose proof (pretty_Z_truthy n) as Htruthy; rewrite <- Hs in Htruthy;
        exists s
    end;
    match goal with t : TokenType |- _ => exists t end;
    exists n; (split; [assumption |]);
    match goal with
    | |- context [<["action" := PStr ?a]> (<["amount" := PStr ?s]>
                    (<["token" := PStr ?t]> ∅))] =>
        destruct (staking_payload_fields a s t) as (Hf1 & Hf2 & Hf3 & Hf4)
    end;
    unfold_execute; cbn [exec_transaction_data exec_user_address]; cbv zeta;
    rewrite Hf1, Hf2, Hf3, Hf4; simpl;
    unfold str_truthy in Htruthy; rewrite Htruthy; simpl;
    match goal with t : TokenType |- _ => destruct t end; simpl;
    match goal with
    | |- context [match ?x with _ => _ end] => destruct x as [? | []]; reflexivity
    end.
Qed.

Lemma staking_payload_reaches_builder_witness :
  let sv := Cases.classify
              (Scenario.intent_of STAKE_TOKEN (Scenario.amount_of "2" "SUI")) None in
  ∃ r tx,
    fst (chat_endpoint sv (Scenario.chat "stake 2 SUI") []) = Ok r
    ∧ transaction_data r = Some tx
    ∧ ∃ amount token_type n,
        PyNum.int_of_str amount = Ok n
        ∧ snd (execute_transaction sv
                 {| exec_user_address := "0xabc"; exec_transaction_data := tx |} [])
          = [C_build_stake_transaction "0xabc" (PStr amount) token_type].
Proof.
  intros sv.
  destruct (chat_endpoint sv (Scenario.chat "stake 2 SUI") []) as [res calls] eqn:Hrun.
  pose proof Hrun as Hv. vm_compute in Hv. injection Hv as <- <-.
  do 2 eexists. split; [reflexivity |]. split; [reflexivity |].
  exact (staking_payload_reaches_builder sv sv (Scenario.chat "stake 2 SUI")
           _ _ _ "0xabc" Hrun (or_introl eq_refl) eq_refl).
Defined.

(** X16: [/chat] does not check the recipient of a transfer: the payload
    carries whatever the parsed data holds under "recipient". Sent back to
    [/execute] without a private key, a payload without recipient is
    rejected with status 400 before any call, although [/chat] may have
    declared it ready; a payload with a recipient reaches the transfer
    builder with that recipient. *)
Theorem transfer_payload_recipient_unchecked (sv sv' : Services)
    (request : ChatRequest) (r : ChatResponse) (calls : list Call)
    (tx : gmap string pyval) (ua : string) :
  chat_endpoint sv request [] = (Ok r, calls) →
  action (intent r) = TRANSFER_TOKEN →
  transaction_data r = Some tx →
  let recipient := dict_get (parsed_data (intent r)) "recipient" in
  let out := execute_transaction sv'
               {| exec_user_address := ua; exec_transaction_data := tx |} [] in
  dict_get tx "recipient" = recipient
  ∧ (truthy recipient = false →
     ∃ detail, out = (Raise (HTTPException HTTP_400_BAD_REQUEST detail), []))
  ∧ (truthy recipient = true →
     ∃ amount token_type,
       snd out = [C_build_transfer_transaction ua recipient (PStr amount) token_type]).
Proof.
  intros Hrun Hact Htx recipient out. subst recipient out.
  pose proof (chat_echoes_intent _ _ _ _ Hrun) as Hparse.
  unfold chat_endpoint, dispatch in Hrun. unfold_monad.
  rewrite Hparse in Hrun. simpl in Hrun. rewrite Hact in Hrun.
  unfold_handlers; run_in Hrun;
    try discriminate Hrun; injection Hrun as Hr _;
    rewrite <- Hr in Htx; simpl in Htx;
    try discriminate Htx; injection Htx as <-;
    match goal with
    | H : PyNum.amount_in_smallest _ _ = Ok ?s |- _ =>
        destruct (amount_in_smallest_units _ _ _ H) as (n & _ & Hs & Hn);
        pose proof (pretty_Z_truthy n) as Htruthy; rewrite <- Hs in Htruthy
    end;
    match goal with
    | |- context [<["action" := _]> (<["recipient" := ?q]> (<["amount" := PStr ?s]>
                    (<["token" := PStr ?t]> ∅)))] =>
        destruct (transfer_payload_fields q s t) as (Hf1 & Hf2 & Hf3 & Hf4 & Hf5)
    end;
    rewrite <- Hr; cbn [intent parsed_data];
    (split; [exact Hf2 |]);
    (split; intros Hrecipient;
     [ unfold_execute; cbn [exec_transaction_data exec_user_address]; cbv zeta;
       rewrite Hf1, Hf2; simpl; rewrite Hrecipient; simpl; eauto
     | do 2 eexists;
       unfold_execute; cbn [exec_transaction_data exec_user_address]; cbv zeta;
       rewrite Hf1, Hf2, Hf3, Hf4, Hf5; simpl; rewrite Hrecipient; simpl;
       unfold str_truthy in Htruthy; rewrite Htruthy; simpl;
       match goal with t : TokenType |- _ => destruct t end; simpl;
       match goal with
       | |- context [match ?x with _ => _ end] => destruct x as [? | []]; reflexivity
       end ]).
Qed.

(** A transfer without recipient, rated "low": ready for [/chat], rejected
    by [/execute]. *)
Lemma transfer_payload_recipient_unchecked_witness :
  let sv := Cases.classify
              (Scenario.intent_of TRANSFER_TOKEN (Scenario.amount_of "5" "SUI")) None in
  ∃ r tx,
    fst (chat_endpoint sv (Scenario.chat "send 5 SUI") []) = Ok r
    ∧ ready_to_execute r = true
    ∧ transaction_data r = Some tx
    ∧ ∃ detail,
        execute_transaction sv
          {| exec_user_address := "0xabc"; exec_transaction_data := tx |} []
        = (Raise (HTTPException HTTP_400_BAD_REQUEST detail), []).
Proof.
  intros sv.
  destruct (chat_endpoint sv (Scenario.chat "send 5 SUI") []) as [res calls] eqn:Hrun.
  pose proof Hrun as Hv. vm_compute in Hv. injection Hv as <- <-.
  do 2 eexists.
  split; [reflexivity |]. split; [reflexivity |]. split; [reflexivity |].
  refine (proj1 (proj2 (transfer_payload_recipient_unchecked sv sv
                          (Scenario.chat "send 5 SUI") _ _ _ "0xabc" Hrun _ _)) _);
    reflexivity.
Defined.

(** ** The contact vault: failures and what they leave behind *)

Section VaultEffects.

Context {Blob : Type} (vs : VaultServices Blob).

(** What a save does to the vault, by outcome. *)
Lemma save_contact_frame (request : ContactRequest) (v : Vault Blob) :
  match save_contact vs request v with
  | (Raise e, v') =>
      status_of (Raise e : result SaveResponse) = Some HTTP_500_INTERNAL_SERVER_ERROR
      ∧ contact_storage v' = contact_storage v ∧ walrus v' = walrus v
  | (Ok resp, v') =>
      ∃ blob,
        contact_storage v'
        = <[contact_user_address request := save_blob_id resp]> (contact_storage v)
        ∧ walrus v' = <[save_blob_id resp := blob]> (walrus v)
        ∧ upload_blob_id vs blob = Ok (save_blob_id resp)
  end.
Proof.
  destruct (save_contact vs request v) as [res v'] eqn:Hrun.
  unfold save_contact, save_contact_body, storage_lookup, storage_set,
    upload_blob, download_blob, vault_call in Hrun.
  run_in Hrun; injection Hrun as <- <-; simpl; eauto.
Qed.

Lemma list_contacts_frame (u : string) (v : Vault Blob) :
  match list_contacts vs u v with
  | (res, v') =>
      contact_storage v' = contact_storage v ∧ walrus v' = walrus v
      ∧ match res with
        | Ok _ => True
        | Raise e =>
            status_of (Raise e : result (list ContactRecord))
            = Some HTTP_500_INTERNAL_SERVER_ERROR
        end
  end.
Proof.
  destruct (list_contacts vs u v) as [res v'] eqn:Hrun.
  unfold list_contacts, storage_lookup, download_blob, vault_call in Hrun.
  run_in Hrun; injection Hrun as <- <-; simpl; eauto.
Qed.

End VaultEffects.

(** X17: a [/contacts/save] that fails always fails with status 500 and
    leaves the user-to-blob mapping and the stored blobs as they were; one
    that succeeds points the user's entry at the returned blob id, under
    which the store now holds the uploaded blob, and changes no other
    entry and no other blob: the previous blob stays in the store. *)
Theorem save_contact_effect {Blob : Type} (vs : VaultServices Blob)
    (request : ContactRequest) (v : Vault Blob) :
  let out := save_contact vs request v in
  match fst out with
  | Raise e =>
      status_of (fst out) = Some HTTP_500_INTERNAL_SERVER_ERROR
      ∧ contact_storage (snd out) = contact_storage v
      ∧ walrus (snd out) = walrus v
  | Ok resp =>
      contact_storage (snd out) !! contact_user_address request
      = Some (save_blob_id resp)
      ∧ is_Some (walrus (snd out) !! save_blob_id resp)
      ∧ (∀ u, u ≠ contact_user_address request →
              contact_storage (snd out) !! u = contact_storage v !! u)
      ∧ (∀ id, id ≠ save_blob_id resp → walrus (snd out) !! id = walrus v !! id)
  end.
Proof.
  intros out. subst out.
  pose proof (save_contact_frame vs request v) as H.
  destruct (save_contact vs request v) as [[resp | e] v']; simpl.
  - destruct H as (blob & -> & -> & _).
    rewrite !lookup_insert_eq. repeat split; eauto.
    + intros u Hu. rewrite lookup_insert_ne by congruence. reflexivity.
    + intros id Hid. rewrite lookup_insert_ne by congruence. reflexivity.
  - exact H.
Qed.

(** X18: [/contacts/list] never changes the user-to-blob mapping or the
    stored blobs, fails only with status 500, and for a user without an
    entry answers the empty list without calling any service. *)
Theorem list_contacts_reads_only {Blob : Type} (vs : VaultServices Blob)
    (u : string) (v : Vault Blob) :
  let out := list_contacts vs u v in
  contact_storage (snd out) = contact_storage v
  ∧ walrus (snd out) = walrus v
  ∧ (∀ e, fst out = Raise e →
          status_of (fst out) = Some HTTP_500_INTERNAL_SERVER_ERROR)
  ∧ (contact_storage v !! u = None → out = (Ok [], v)).
Proof.
  intros out. subst out.
  pose proof (list_contacts_frame vs u v) as H.
  destruct (list_contacts vs u v) as [res v'] eqn:Hrun.
  destruct H as (Hs & Hw & Hres). simpl.
  repeat split; try assumption.
  - intros e ->. exact Hres.
  - intros Hnone. rewrite <- Hrun.
    unfold list_contacts, storage_lookup. unfold_monad. rewrite Hnone. reflexivity.
Qed.

Section VaultWithFailures.

Context {Blob : Type} (vs : VaultServices Blob).

Hypothesis seal_roundtrip : ∀ ua cs b,
  encrypt_bulk_contacts vs ua cs = Ok b → decrypt_bulk_contacts vs ua b = Ok cs.

Hypothesis blob_id_content : ∀ b b' id,
  upload_blob_id vs b = Ok id → upload_blob_id vs b' = Ok id → b = b'.

(** The invariant only reads the mapping and the blobs. *)
Lemma vault_inv_frame (v v' : Vault Blob) (m : string → list ContactRecord) :
  contact_storage v' = contact_storage v → walrus v' = walrus v →
  vault_inv vs v m → vault_inv vs v' m.
Proof.
  unfold vault_inv. intros -> ->. auto.
Qed.

Lemma save_all_inv_any (requests : list ContactRequest) :
  ∀ (v v' : Vault Blob) (m : string → list ContactRecord) outs,
    vault_inv vs v m →
    save_all vs requests v = (outs, v') →
    vault_inv vs v' (λ u, m u ++ saved_ok u requests outs).
Proof.
  induction requests as [| r rest IH]; intros v v' m outs Hinv Hrun.
  - injection Hrun as <- <-.
    apply (vault_inv_ext vs v m); [| exact Hinv].
    intros u. simpl. rewrite app_nil_r. reflexivity.
  - simpl in Hrun.
    pose proof (save_contact_frame vs r v) as Hframe.
    destruct (save_contact vs r v) as [out v1] eqn:Hsave.
    destruct (save_all vs rest v1) as [outs' v2] eqn:Hrest.
    injection Hrun as <- <-.
    destruct out as [resp | e].
    + pose proof (save_contact_inv vs seal_roundtrip blob_id_content
                    _ _ _ _ _ Hinv Hsave) as Hinv1.
      pose proof (IH _ _ _ _ Hinv1 Hrest) as Hinv2.
      eapply vault_inv_ext; [| exact Hinv2].
      intros u. simpl.
      destruct (decide (contact_user_address r = u)) as [<- | Hne].
      * rewrite decide_True by reflexivity. rewrite <- app_assoc. reflexivity.
      * rewrite decide_False by congruence. reflexivity.
    + destruct Hframe as (_ & Hs & Hw).
      exact (IH _ _ _ _ (vault_inv_frame _ _ _ Hs Hw Hinv) Hrest).
Qed.

End VaultWithFailures.

(** X19: with an encryption service that decrypts what it encrypted and a
    content-addressed blob store, after any run of [/contacts/save]
    requests from an empty vault, failed ones included, the listing of a
    user is exactly the records of that user's successful requests, in
    order: a failed save neither adds a record nor loses one. *)
Theorem saved_contacts_survive_failures {Blob : Type} (vs : VaultServices Blob)
    (requests : list ContactRequest) (outs : list (result SaveResponse))
    (v : Vault Blob) (u : string) :
  (∀ ua cs b, encrypt_bulk_contacts vs ua cs = Ok b →
              decrypt_bulk_contacts vs ua b = Ok cs) →
  (∀ b b' id, upload_blob_id vs b = Ok id → upload_blob_id vs b' = Ok id → b = b') →
  save_all vs requests empty_vault = (outs, v) →
  fst (list_contacts vs u v) = Ok (saved_ok u requests outs).
Proof.
  intros Hseal Hstore Hrun.
  pose proof (save_all_inv_any vs Hseal Hstore requests _ _ _ _
                (vault_inv_empty vs) Hrun) as Hinv.
  apply (list_contacts_inv vs _ _ u Hinv).
Qed.

(** Mom, a request without address (refused), then Bob. *)
Lemma saved_contacts_survive_failures_witness :
  let requests :=
    [Scenario.contact "0xabc" "Mom" "0x11"; Scenario.contact "0xabc" "Dad" "";
     Scenario.contact "0xabc" "Bob" "0x33"] in
  let run := save_all Scenario.vault_services requests empty_vault in
  is_ok <$> fst run = [true; false; true]
  ∧ fst (list_contacts Scenario.vault_services "0xabc" (snd run))
    = Ok [{| name := "Mom"; address := "0x11"; notes := None |};
          {| name := "Bob"; address := "0x33"; notes := None |}].
Proof.
  intros requests run. split; [vm_compute; reflexivity |].
  etrans.
  - exact (saved_contacts_survive_failures Scenario.vault_services requests
             (fst run) (snd run) "0xabc" scenario_seal_roundtrip
             scenario_blob_id_content (surjective_pairing run)).
  - vm_compute. reflexivity.
Defined.

(** ** The amount conversion on whole amounts *)

Section WholeAmounts.
Import PyNum.


Lemma iter_pos_nat {A} (f : A → A) (p : positive) (x : A) :
  SpecFloat.iter_pos f p x = Nat.iter (Pos.to_nat p) f x.
Proof.
  revert x. induction p as [p IH | p IH |]; intros x; cbn [SpecFloat.iter_pos].
  - rewrite !IH, Pos2Nat.inj_xI.
    replace (S (2 * Pos.to_nat p)) with (Pos.to_nat p + (Pos.to_nat p + 1))%nat by lia.
    rewrite !Nat.iter_add. reflexivity.
  - rewrite !IH, Pos2Nat.inj_xO.
    replace (2 * Pos.to_nat p)%nat with (Pos.to_nat p + Pos.to_nat p)%nat by lia.
    rewrite Nat.iter_add. reflexivity.
  - reflexivity.
Qed.

Lemma doubled_value (n : nat) (q : positive) :
  Z.pos (Nat.iter n xO q) = Z.pos q * 2 ^ Z.of_nat n.
Proof.
  induction n as [| n IH]; [simpl; lia |].
  rewrite Nat2Z.inj_succ, Z.pow_succ_r by lia.
  simpl. change (Z.pos (Nat.iter n xO q)~0) with (2 * Z.pos (Nat.iter n xO q)).
  rewrite IH. lia.
Qed.

Lemma doubled_digits (n : nat) (q : positive) :
  Z.pos (digits2_pos (Nat.iter n xO q)) = Z.pos (digits2_pos q) + Z.of_nat n.
Proof.
  induction n as [| n IH]; [simpl; lia |].
  simpl Nat.iter. simpl digits2_pos. rewrite Pos2Z.inj_succ, IH. lia.
Qed.

Lemma doubled_mul (a b : nat) (p c : positive) :
  (Nat.iter a xO p * Nat.iter b xO c = Nat.iter (a + b) xO (p * c))%positive.
Proof.
  apply Pos2Z.inj. rewrite Pos2Z.inj_mul, !doubled_value, Pos2Z.inj_mul.
  rewrite Nat2Z.inj_add, Z.pow_add_r by lia. lia.
Qed.

(** The number of binary digits brackets the number. *)
Lemma digits_bounds (p : positive) :
  2 ^ (Z.pos (digits2_pos p) - 1) ≤ Z.pos p < 2 ^ Z.pos (digits2_pos p).
Proof.
  induction p as [p IH | p IH |]; simpl digits2_pos; [| | simpl; lia].
  - rewrite Pos2Z.inj_succ, Pos2Z.inj_xI.
    replace (Z.succ (Z.pos (digits2_pos p)) - 1) with (Z.succ (Z.pos (digits2_pos p) - 1))
      by lia.
    rewrite !Z.pow_succ_r by lia. lia.
  - rewrite Pos2Z.inj_succ. change (Z.pos p~0) with (2 * Z.pos p).
    replace (Z.succ (Z.pos (digits2_pos p)) - 1) with (Z.succ (Z.pos (digits2_pos p) - 1))
      by lia.
    rewrite !Z.pow_succ_r by lia. lia.
Qed.

Lemma digits_le (p : positive) (k : Z) :
  0 ≤ k → Z.pos p < 2 ^ k → Z.pos (digits2_pos p) ≤ k.
Proof.
  intros Hk Hp. pose proof (digits_bounds p) as [Hlo _].
  destruct (Z_le_gt_dec (Z.pos (digits2_pos p)) k) as [H | H]; [exact H |].
  assert (2 ^ k ≤ 2 ^ (Z.pos (digits2_pos p) - 1)) by (apply Z.pow_le_mono_r; lia).
  lia.
Qed.

Lemma digits_mono (p q : positive) :
  (p ≤ q)%positive → Z.pos (digits2_pos p) ≤ Z.pos (digits2_pos q).
Proof.
  intros Hpq. pose proof (digits_bounds q) as [_ Hhi].
  apply digits_le; lia.
Qed.

(** Halving an even mantissa loses nothing. *)
Lemma shr_doubled (k : nat) (q : positive) :
  Nat.iter k shr_1 {| shr_m := Z.pos (Nat.iter k xO q); shr_r := false; shr_s := false |}
  = {| shr_m := Z.pos q; shr_r := false; shr_s := false |}.
Proof.
  revert q. induction k as [| k IH]; intros q; [reflexivity |].
  rewrite Nat.iter_succ_r. simpl Nat.iter at 2.
  change (shr_1 {| shr_m := Z.pos (Nat.iter k xO q)~0; shr_r := false; shr_s := false |})
    with {| shr_m := Z.pos (Nat.iter k xO q); shr_r := false; shr_s := false |}.
  apply IH.
Qed.

(** Rounding a mantissa [q * 2^(k+i)] whose [k] excess digits are all
    among the doublings drops them and keeps the value. *)
Lemma round_exact (s : bool) (q : positive) (k i : nat) (E : Z) :
  fexp prec emax (Z.pos (digits2_pos q) + Z.of_nat (k + i) + E) - E = Z.of_nat k →
  E + Z.of_nat k ≤ emax - prec →
  binary_round_aux prec emax s (Z.pos (Nat.iter (k + i) xO q)) E loc_Exact
  = S754_finite s (Nat.iter i xO q) (E + Z.of_nat k).
Proof.
  intros Hn Hmax.
  unfold binary_round_aux, shr_fexp.
  unfold Zdigits2 at 1. rewrite doubled_digits, Hn.
  assert (shr (shr_record_of_loc (Z.pos (Nat.iter (k + i) xO q)) loc_Exact) E
            (Z.of_nat k)
          = ({| shr_m := Z.pos (Nat.iter i xO q); shr_r := false; shr_s := false |},
             E + Z.of_nat k)) as ->.
  { unfold shr, shr_record_of_loc.
    destruct k as [| k']; [simpl; f_equal; lia |].
    change (Z.of_nat (S k')) with (Z.pos (Pos.of_succ_nat k')). cbv beta iota.
    rewrite iter_pos_nat, SuccNat2Pos.id_succ. f_equal.
    rewrite Nat.iter_add. apply shr_doubled. }
  cbn [shr_m loc_of_shr_record round_nearest_even].
  unfold Zdigits2. rewrite doubled_digits.
  replace (fexp prec emax (Z.pos (digits2_pos q) + Z.of_nat i + (E + Z.of_nat k))
           - (E + Z.of_nat k)) with 0.
  - cbn [shr shr_record_of_loc shr_m].
    destruct (Z.leb_spec (E + Z.of_nat k) (emax - prec)); [reflexivity | lia].
  - replace (Z.pos (digits2_pos q) + Z.of_nat i + (E + Z.of_nat k))
      with (Z.pos (digits2_pos q) + Z.of_nat (k + i) + E) by lia.
    lia.
Qed.


Lemma div_eucl_by_1 (a : Z) : Z.div_eucl a 1 = (a, 0).
Proof.
  pose proof (Z_div_mod a 1 ltac:(lia)) as H.
  destruct (Z.div_eucl a 1) as [q r]. destruct H as [H1 H2]. f_equal; lia.
Qed.

(** [float] of a whole number below 2^53 is that number: the mantissa is
    the number shifted to 53 digits. *)
Lemma float_of_whole (p : positive) :
  Z.pos p < 2 ^ 53 →
  float_of_decimal false (Z.pos p) 0
  = S754_finite false
      (Nat.iter (Z.to_nat (53 - Z.pos (digits2_pos p))) xO p)
      (Z.pos (digits2_pos p) - 53).
Proof.
  intros Hp. pose proof (digits_le p 53 ltac:(lia) Hp) as Hd.
  set (dp := Z.pos (digits2_pos p)) in *.
  assert (0 < dp) as Hpos by (subst dp; lia).
  unfold float_of_decimal. change (Z.to_pos (10 ^ 0)) with 1%positive.
  unfold SFdiv, SFdiv_core_binary. cbv zeta.
  change (Zdigits2 (Z.pos p)) with dp. change (Zdigits2 1) with 1.
  replace (Z.min (fexp prec emax (dp + 0 - (1 + 0))) (0 - 0)) with (dp - 54)
    by (unfold fexp, emin, prec, emax; lia).
  replace (0 - 0 - (dp - 54)) with (54 - dp) by lia.
  destruct (54 - dp) as [| ps | ps] eqn:Hs; [lia | | lia].
  rewrite Z.shiftl_mul_pow2 by lia. rewrite div_eucl_by_1.
  change (new_location 1 0) with loc_Exact. cbn [xorb].
  replace (Z.pos p * 2 ^ Z.pos ps)
    with (Z.pos (Nat.iter (1 + Z.to_nat (53 - dp)) xO p))
    by (rewrite doubled_value; f_equal; f_equal; lia).
  rewrite round_exact.
  - f_equal. lia.
  - fold dp. unfold fexp, emin, prec, emax. lia.
  - unfold prec, emax. lia.
Qed.


(** Multiplying a whole number by [c * 2^t], then truncating, is exact as
    long as the product stays below 2^53. *)
Lemma mul_whole_exact (p c : positive) (b : nat) (ey : Z) :
  let dp := Z.pos (digits2_pos p) in
  let t := Z.of_nat b + ey in
  dp ≤ 53 → 0 ≤ t →
  Z.pos (p * c) * 2 ^ t < 2 ^ 53 →
  int_of_float
    (SFmul prec emax
       (S754_finite false (Nat.iter (Z.to_nat (53 - dp)) xO p) (dp - 53))
       (S754_finite false (Nat.iter b xO c) ey))
  = Ok (Z.pos (p * c) * 2 ^ t).
Proof.
  intros dp t Hdp Ht Hlt.
  set (K := (p * c)%positive) in *.
  set (dK := Z.pos (digits2_pos K)).
  assert (0 < dp) as Hdp0 by (subst dp; lia).
  assert (dp ≤ dK) as Hmono by (apply digits_mono; subst K; nia).
  assert (t < 53) as Ht53.
  { apply (Z.pow_lt_mono_r_iff 2); [lia | lia |].
    assert (1 * 2 ^ t ≤ Z.pos K * 2 ^ t) by (apply Z.mul_le_mono_nonneg_r; lia).
    lia. }
  assert (dK + t ≤ 53) as HdK.
  { assert (dK ≤ 53 - t); [| lia].
    apply digits_le; [lia |].
    replace 53 with ((53 - t) + t) in Hlt by lia.
    rewrite Z.pow_add_r in Hlt by lia.
    apply (Z.mul_lt_mono_pos_r (2 ^ t)); [lia | exact Hlt]. }
  unfold SFmul. cbn [xorb]. rewrite doubled_mul. fold K.
  replace (Z.to_nat (53 - dp) + b)%nat
    with ((Z.to_nat (dK - dp) + b) + Z.to_nat (53 - dK))%nat by lia.
  rewrite round_exact.
  - replace (dp - 53 + ey + Z.of_nat (Z.to_nat (dK - dp) + b)) with (dK + t - 53)
      by lia.
    unfold int_of_float. rewrite doubled_value.
    destruct (Z.leb_spec 0 (dK + t - 53)) as [H0 | H0].
    + replace (dK + t - 53) with 0 by lia. f_equal.
      replace (Z.of_nat (Z.to_nat (53 - dK))) with t by lia. lia.
    + f_equal.
      replace (Z.of_nat (Z.to_nat (53 - dK))) with (t + (53 - dK - t)) by lia.
      replace (- (dK + t - 53)) with (53 - dK - t) by lia.
      rewrite Z.pow_add_r by lia. rewrite Z.mul_assoc.
      apply Z.div_mul. lia.
  - fold dK. unfold fexp, emin, prec, emax. lia.
  - unfold prec, emax. lia.
Qed.


(** Reading back, with their count, the digits that [pretty] puts in front
    of [s]. *)
Lemma read_digits_go (x : N) :
  ∃ k len : Z,
    0 ≤ len ∧ ((0 < x)%N → 0 < len)
    ∧ ∀ s m c, read_digits (pretty_N_go x s) m c
               = read_digits s (m * k + Z.of_N x) (c + len).
Proof.
  induction (N.lt_wf_0 x) as [x _ IH].
  destruct (decide (x = 0%N)) as [-> | Hx].
  - exists 1, 0. split; [lia |]. split; [lia |].
    intros s m c. rewrite pretty_N_go_0. f_equal; lia.
  - destruct (IH (x `div` 10)%N) as (k & len & Hlen & _ & Hk).
    { apply N.div_lt; lia. }
    exists (10 * k), (len + 1). split; [lia |]. split; [lia |].
    intros s m c.
    rewrite pretty_N_go_step by lia. rewrite Hk.
    cbn [read_digits]. rewrite digit_of_char by (apply N.mod_lt; lia).
    pose proof (N.div_mod x 10 ltac:(lia)) as Hdm.
    f_equal; [| lia]. rewrite Hdm at 3. lia.
Qed.

(** The decimal rendering of a positive whole number parses as that number
    without fractional digits. *)
Lemma parse_decimal_pretty (p : positive) :
  parse_decimal (pretty (Z.pos p)) = Some (false, Z.pos p, 0).
Proof.
  pose proof (int_of_digits_pretty p) as Hint.
  unfold pretty at 1, pretty_Z.
  unfold parse_decimal.
  assert (strip_sign (pretty p) = (false, pretty p)) as ->.
  { destruct (pretty p) as [| c r]; [reflexivity |].
    simpl in Hint. destruct (digit_of c) as [d |] eqn:Hd; [| discriminate Hint].
    unfold strip_sign.
    destruct c as [[] [] [] [] [] [] [] []]; try reflexivity; discriminate Hd. }
  unfold pretty, pretty_positive, pretty, pretty_N.
  destruct (decide (N.pos p = 0%N)) as [H | _]; [discriminate H |].
  destruct (read_digits_go (N.pos p)) as (k & len & _ & Hlen & Hk).
  rewrite Hk. cbn [read_digits].
  destruct (Z.eqb_spec (0 + len) 0) as [H0 | _]; [specialize (Hlen eq_refl); lia |].
  f_equal.
Qed.


(** The doubles of the two powers of ten, as an odd number doubled. *)
Lemma float_of_10_9 :
  float_of_int (10 ^ 9) = Ok (S754_finite false (Nat.iter 32 xO 1953125%positive) (-23)).
Proof. vm_compute. reflexivity. Qed.

Lemma float_of_10_6 :
  float_of_int (10 ^ 6) = Ok (S754_finite false (Nat.iter 39 xO 15625%positive) (-33)).
Proof. vm_compute. reflexivity. Qed.

End WholeAmounts.

(** X20: for a whole-number amount the conversion to smallest units is
    exact, with the exponent 9 of SUI as with the exponent 6 of the stable
    token, as long as the result stays below 2^53 (9007199 SUI,
    9007199254 units of the stable token): the decimal text of [n] becomes
    the decimal text of [n * 10^d]. *)
Theorem whole_amounts_convert_exactly (n d : Z) :
  d = 9 ∨ d = 6 →
  0 ≤ n →
  n * 10 ^ d < 2 ^ 53 →
  PyNum.amount_in_smallest (PStr (pretty n)) d = Ok (pretty (n * 10 ^ d)).
Proof.
  intros Hd Hn Hlt.
  destruct n as [| p | p]; [destruct Hd as [-> | ->]; vm_compute; reflexivity | | lia].
  assert (Z.pos p < 2 ^ 53) as Hp.
  { destruct Hd as [-> | ->]; change (10 ^ 9) with 1000000000 in *;
      change (10 ^ 6) with 1000000 in *; lia. }
  unfold PyNum.amount_in_smallest, PyNum.smallest_units, PyNum.py_float.
  rewrite parse_decimal_pretty, (float_of_whole p Hp).
  unfold PyNum.float_mul_int.
  pose proof (digits_le p 53 ltac:(lia) Hp) as Hdp.
  destruct Hd as [-> | ->].
  - rewrite float_of_10_9.
    rewrite (mul_whole_exact p 1953125%positive 32%nat (-23) Hdp ltac:(simpl; lia)).
    + do 2 f_equal. rewrite Pos2Z.inj_mul.
      change (2 ^ (Z.of_nat 32 + -23)) with 512. change (10 ^ 9) with 1000000000. lia.
    + rewrite Pos2Z.inj_mul.
      change (2 ^ (Z.of_nat 32 + -23)) with 512. change (10 ^ 9) with 1000000000 in Hlt.
      lia.
  - rewrite float_of_10_6.
    rewrite (mul_whole_exact p 15625%positive 39%nat (-33) Hdp ltac:(simpl; lia)).
    + do 2 f_equal. rewrite Pos2Z.inj_mul.
      change (2 ^ (Z.of_nat 39 + -33)) with 64. change (10 ^ 6) with 1000000. lia.
    + rewrite Pos2Z.inj_mul.
      change (2 ^ (Z.of_nat 39 + -33)) with 64. change (10 ^ 6) with 1000000 in Hlt.
      lia.
Qed.

(** The largest whole number of SUI that is covered. *)
Lemma whole_amounts_convert_exactly_witness :
  PyNum.amount_in_smallest (PStr "9007199") 9 = Ok "9007199000000000".
Proof.
  etrans; [| etrans].
  2: exact (whole_amounts_convert_exactly 9007199 9 (or_introl eq_refl)
              ltac:(lia) ltac:(reflexivity)).
  - vm_compute. reflexivity.
  - vm_compute. reflexivity.
Defined.
